(** * azure-rag-itpolicy-assistant: the ingestion pipeline, verified

    A shallow embedding of [src/chunk_and_index.py] and [src/ingest.py].

    - [PyStr]  Python [str] values: sequences of Unicode code points, with
               [len], [str.strip], [str.join], slicing and [str(int)].
    - [Py]     JSON-shaped Python values, exceptions, and the monad the
               two scripts run in: a world (standard output, the [uuid4]
               draws, the local files) threaded through calls that either
               return or raise.
    - [ChunkAndIndex]  [semantic_chunking] and [create_simple_index].
    - [Ingest]         [analyze_document] and [ingest_file].
    - [Samples]        the concrete inputs the examples run on.
    - [Notions]        notions the further properties are stated with.
    - [Pipeline]       [test_openai_embedding], [index_chunks] and the two
                       scripts, each as a call that returns its exit status.
    - [MoreSamples]    more concrete inputs.

    The external collaborators (the uuid generator, the search service, the
    blob container, the document-analysis service) are parameters: what
    they return or raise in a run. So are the search configuration read
    from the environment and what the constructors of the SDK's credential
    and clients do with it. The theorems follow the definitions, file by
    file. *)

From Stdlib Require Import ZArith List String Ascii Lia.
From Stdlib Require Import Floats.SpecFloat DecimalString.
From stdpp Require Import gmap strings list fin_maps.

#[local] Set Warnings "-register-all".
#[local] Open Scope Z_scope.

(* ===================================================================== *)
(** ** Python strings *)
(* ===================================================================== *)

Module PyStr.

(** A Python [str] is a sequence of code points; [len] counts code points. *)
Definition pystr : Type := list N.

(** A literal of the source, written in ASCII. *)
Definition u (s : string) : pystr :=
  List.map N_of_ascii (list_ascii_of_string s).

Arguments u : simpl never.

Definition len (s : pystr) : Z := Z.of_nat (length s).

(** [str.isspace] on one code point, CPython's [_PyUnicode_IsWhitespace]:
    the characters [str.strip()] removes when called without argument. *)
Definition is_space (c : N) : bool :=
  ((0x09 <=? c) && (c <=? 0x0D) || (0x1C <=? c) && (c <=? 0x20)
   || (c =? 0x85) || (c =? 0xA0) || (c =? 0x1680)
   || (0x2000 <=? c) && (c <=? 0x200A)
   || (c =? 0x2028) || (c =? 0x2029) || (c =? 0x202F) || (c =? 0x205F)
   || (c =? 0x3000))%N.

Fixpoint lstrip (s : pystr) : pystr :=
  match s with
  | c :: s' => if is_space c then lstrip s' else s
  | [] => []
  end.

Definition rstrip (s : pystr) : pystr := rev (lstrip (rev s)).

(** [s.strip()] *)
Definition strip (s : pystr) : pystr := rstrip (lstrip s).

(** [sep.join(parts)] for parts that are all [str]. *)
Fixpoint join (sep : pystr) (parts : list pystr) : pystr :=
  match parts with
  | [] => []
  | [p] => p
  | p :: rest => p ++ sep ++ join sep rest
  end.

(** [str(n)] for an [int], and so [f"{n}"]. *)
Definition str_of_int (n : Z) : pystr := u (NilZero.string_of_int (Z.to_int n)).

(** [s[:n]] for a literal [n >= 0]. *)
Definition slice_to (n : nat) (s : pystr) : pystr := take n s.

End PyStr.
Import PyStr.

(* ===================================================================== *)
(** ** Python values, exceptions and effects *)
(* ===================================================================== *)

Module Py.

(** What [json.load] yields and [json.dump] accepts; floats are IEEE
    doubles, carried but never computed with. A [dict] with [str] keys is
    a finite map. *)
Inductive value : Type :=
| VNone
| VBool (b : bool)
| VInt (z : Z)
| VFloat (f : spec_float)
| VStr (s : pystr)
| VList (l : list value)
| VDict (d : gmap pystr value).

Definition type_name (v : value) : pystr :=
  match v with
  | VNone => u "NoneType"
  | VBool _ => u "bool"
  | VInt _ => u "int"
  | VFloat _ => u "float"
  | VStr _ => u "str"
  | VList _ => u "list"
  | VDict _ => u "dict"
  end.

(** An instance of a subclass of [Exception]: its class and [str(e)]. *)
Record Exception : Type := { exc_class : pystr; exc_str : pystr }.

Definition KeyError (key : pystr) : Exception :=
  {| exc_class := u "KeyError"; exc_str := u "'" ++ key ++ u "'" |}.
Definition AttributeError (v : value) (attr : pystr) : Exception :=
  {| exc_class := u "AttributeError";
     exc_str := u "'" ++ type_name v ++ u "' object has no attribute '"
                ++ attr ++ u "'" |}.
Definition IndexError : Exception :=
  {| exc_class := u "IndexError"; exc_str := u "list index out of range" |}.
Definition TypeError (msg : pystr) : Exception :=
  {| exc_class := u "TypeError"; exc_str := msg |}.

(** The part of the process state the scripts touch. *)
Record world : Type := {
  stdout : list pystr;            (* the lines printed so far *)
  uuid_draws : nat;               (* how many times uuid.uuid4() was called *)
  files : gmap pystr value        (* JSON documents written, by path *)
}.

Inductive outcome (A : Type) : Type :=
| Returns (a : A)
| Raises (e : Exception).
Arguments Returns {A} a.
Arguments Raises {A} e.

(** A call: it changes the world and returns or raises. What was printed
    or written before a raise stays. *)
Definition M (A : Type) : Type := world -> world * outcome A.

#[export] Instance M_ret : MRet M := fun A a w => (w, Returns a).
#[export] Instance M_bind : MBind M := fun A B k m w =>
  match m w with
  | (w', Returns a) => k a w'
  | (w', Raises e) => (w', Raises e)
  end.

Definition raise {A} (e : Exception) : M A := fun w => (w, Raises e).

(** [try: body / except Exception as e: handler(e)] *)
Definition try_except {A} (body : M A) (handler : Exception -> M A) : M A :=
  fun w =>
    match body w with
    | (w', Returns a) => (w', Returns a)
    | (w', Raises e) => handler e w'
    end.

(** A call into a library whose result the script does not look at:
    the library returns ([None]) or raises. *)
Definition call (answer : option Exception) : M unit :=
  match answer with
  | None => mret tt
  | Some e => raise e
  end.

(** [print(line)] *)
Definition print (line : pystr) : M unit := fun w =>
  ({| stdout := stdout w ++ [line]; uuid_draws := uuid_draws w;
      files := files w |}, Returns tt).

(** [d[key]] on a dict *)
Definition getitem (d : gmap pystr value) (key : pystr) : M value :=
  match d !! key with
  | Some v => mret v
  | None => raise (KeyError key)
  end.

(** [l[0]] on a list *)
Definition first {A} (l : list A) : M A :=
  match l with
  | x :: _ => mret x
  | [] => raise IndexError
  end.

(** [v.strip()]: only a [str] has the method. *)
Definition strip_method (v : value) : M pystr :=
  match v with
  | VStr s => mret (strip s)
  | _ => raise (AttributeError v (u "strip"))
  end.

(** [sep.join(parts)]: the first part that is not a [str] raises. *)
Fixpoint str_parts (i : Z) (parts : list value) : M (list pystr) :=
  match parts with
  | [] => mret []
  | VStr s :: rest => ss ← str_parts (i + 1) rest; mret (s :: ss)
  | v :: _ =>
      raise (TypeError (u "sequence item " ++ str_of_int i
                        ++ u ": expected str instance, " ++ type_name v
                        ++ u " found"))
  end.

Definition join_method (sep : pystr) (parts : list value) : M pystr :=
  ss ← str_parts 0 parts; mret (join sep ss).

(** [for x in l: acc = body(acc, x)] *)
Fixpoint for_each {S A} (body : S -> A -> M S) (l : list A) (acc : S) : M S :=
  match l with
  | [] => mret acc
  | x :: l' => acc' ← body acc x; for_each body l' acc'
  end.

End Py.
Import Py.

(* ===================================================================== *)
(** ** src/chunk_and_index.py *)
(* ===================================================================== *)

Module ChunkAndIndex.

(** A Content Record as [json.load] hands it over: a dict. *)
Abbreviation record := (gmap pystr value).

(** The dict literal of lines 36-42 and 51-57. *)
Record chunk : Type := {
  id : pystr;
  content : pystr;
  page : value;
  type : value;
  doc_name : pystr
}.

(** The three loop variables of [semantic_chunking]. *)
Record loop_state : Type := {
  chunks : list chunk;
  current_chunk : list record;
  current_length : Z
}.

(** The keyword arguments of [SearchField] that [create_simple_index] uses;
    [None] where a call leaves one out. *)
Record SearchField : Type := {
  field_name : pystr;
  field_type : pystr;
  key : option bool;
  searchable : option bool;
  retrievable : option bool;
  filterable : option bool;
  sortable : option bool
}.

Record SearchIndex : Type := {
  index_name : pystr;
  fields : list SearchField
}.

Section Collaborators.

(** [uuid n]: what [str(uuid.uuid4())] returns at its [n]-th call of the
    run, counted from 0. *)
Variable uuid : nat -> pystr.

(** Lines 17-18: what [os.getenv] gave for AZURE_SEARCH_ENDPOINT and for
    AZURE_SEARCH_KEY, [None] for a variable that is not set. *)
Variable search_endpoint : option pystr.
Variable search_key : option pystr.

(** The constructors of the SDK check their arguments. What
    [AzureKeyCredential(key)] does with the key, and what
    [SearchIndexClient(endpoint=..., credential=...)] does with the
    endpoint and the key of the credential: each returns ([None]) or
    raises. *)
Variable AzureKeyCredential : option pystr -> option Exception.
Variable SearchIndexClient : option pystr -> option pystr -> option Exception.

(** What the search service does with [create_or_update_index(index)]:
    it returns ([None]) or raises. *)
Variable create_or_update_index : SearchIndex -> option Exception.

(** [str(uuid.uuid4())] *)
Definition uuid4_str : M pystr := fun w =>
  ({| stdout := stdout w; uuid_draws := S (uuid_draws w); files := files w |},
   Returns (uuid (uuid_draws w))).

(** Lines 36-42 and 51-57: the chunk made of the accumulated records. The
    entries of the dict literal are evaluated in order. *)
Definition close_chunk (current_chunk : list record) : M chunk :=
  i ← uuid4_str;
  parts ← mapM (fun c => getitem c (u "content")) current_chunk;
  text ← join_method (u ". ") parts;
  r ← first current_chunk;
  p ← getitem r (u "page");
  r' ← first current_chunk;
  t ← getitem r' (u "type");
  mret {| id := i; content := text; page := p; type := t;
          doc_name := u "support.pdf" |}.

(** Lines 33-47: what the loop does with a record that passed the
    fragment filter, [text_len] being the length of its trimmed text. *)
Definition accumulate (target_chars : Z) (st : loop_state)
    (item : record) (text_len : Z) : M loop_state :=
  if (current_length st + text_len >? target_chars)
     && negb (bool_decide (current_chunk st = []))
  then
    c ← close_chunk (current_chunk st);
    mret {| chunks := chunks st ++ [c];
            current_chunk := [item];
            current_length := text_len |}
  else
    mret {| chunks := chunks st;
            current_chunk := current_chunk st ++ [item];
            current_length := current_length st + text_len |}.

(** Lines 29-47: the body of the loop. *)
Definition loop_body (target_chars : Z) (st : loop_state) (item : record)
    : M loop_state :=
  c ← getitem item (u "content");
  text ← strip_method c;
  if len text <? 20 then mret st
  else accumulate target_chars st item (len text).

(** Lines 20-60. *)
Definition semantic_chunking (raw_chunks : list record) (target_chars : Z)
    : M (list chunk) :=
  _ ← print ([0x1F52A%N] ++ u " Chunking "
             ++ str_of_int (Z.of_nat (length raw_chunks))
             ++ u " raw lines...");
  st ← for_each (loop_body target_chars) raw_chunks
         {| chunks := []; current_chunk := []; current_length := 0 |};
  result ←
    (if negb (bool_decide (current_chunk st = [])) then
       c ← close_chunk (current_chunk st); mret (chunks st ++ [c])
     else mret (chunks st));
  _ ← print ([0x2705%N] ++ u " Created "
             ++ str_of_int (Z.of_nat (length result))
             ++ u " semantic chunks");
  mret result.

(** The default of the parameter [target_chars]. *)
Definition default_target_chars : Z := 1000.

(** Lines 69-77. *)
Definition simple_index : SearchIndex :=
  {| index_name := u "itpolicy-nist-index";
     fields := [
       {| field_name := u "id"; field_type := u "Edm.String";
          key := Some true; searchable := None; retrievable := None;
          filterable := None; sortable := None |};
       {| field_name := u "content"; field_type := u "Edm.String";
          key := None; searchable := Some true; retrievable := Some true;
          filterable := None; sortable := None |};
       {| field_name := u "page"; field_type := u "Edm.Int32";
          key := None; searchable := None; retrievable := None;
          filterable := Some true; sortable := Some true |};
       {| field_name := u "type"; field_type := u "Edm.String";
          key := None; searchable := None; retrievable := None;
          filterable := Some true; sortable := None |};
       {| field_name := u "doc_name"; field_type := u "Edm.String";
          key := None; searchable := None; retrievable := None;
          filterable := Some true; sortable := None |} ] |}.

(** [index_client.create_or_update_index(index)] *)
Definition call_create_or_update_index (index : SearchIndex) : M unit :=
  match create_or_update_index index with
  | None => mret tt
  | Some e => raise e
  end.

(** Lines 64-67: the arguments are evaluated first, so the credential is
    built before the client. Nothing here is inside a [try]. *)
Definition new_index_client : M unit :=
  _ ← call (AzureKeyCredential search_key);
  call (SearchIndexClient search_endpoint search_key).

(** Lines 62-85. The client is built before the [try] of line 79 is
    entered. The schema objects of lines 69-77 are built from literals and
    hold what they are given: [simple_index]. *)
Definition create_simple_index : M bool :=
  _ ← new_index_client;
  let index := simple_index in
  try_except
    (_ ← call_create_or_update_index index;
     _ ← print ([0x2705%N] ++ u " SIMPLE INDEX created: itpolicy-nist-index");
     mret true)
    (fun e =>
     _ ← print ([0x2705%N] ++ u " Index exists: "
                ++ slice_to 100 (exc_str e) ++ u "...");
     mret true).

End Collaborators.

(** *** The records behind each chunk

    The loop again, keeping the accumulated records of each chunk it closes
    instead of the chunk: the constituent records of every output chunk. *)

(** [item['content']] when it is a [str] *)
Definition text_of (item : record) : option pystr :=
  match item !! u "content" with
  | Some (VStr s) => Some s
  | _ => None
  end.

(** The content string of a record, as stored. *)
Definition untrimmed (item : record) : pystr := default [] (text_of item).

(** [len(item['content'].strip())] *)
Definition trimmed_len (item : record) : Z := len (strip (untrimmed item)).

(** A record the chunker can read: its content is a [str], and it has a
    page and a type. Every Content Record is one. *)
Definition well_formed (item : record) : Prop :=
  is_Some (text_of item) /\ is_Some (item !! u "page")
  /\ is_Some (item !! u "type").

#[export] Instance well_formed_dec item : Decision (well_formed item).
Proof. unfold well_formed. apply _. Defined.

(** A record that passes the fragment filter of line 30. *)
Definition kept (item : record) : Prop := 20 <= trimmed_len item.

#[export] Instance kept_dec item : Decision (kept item).
Proof. unfold kept. apply _. Defined.

Record grouping : Type := {
  closed : list (list record);      (* the records of the chunks closed so far *)
  open : list record;               (* current_chunk *)
  open_length : Z                   (* current_length *)
}.

Definition group_step (target_chars : Z) (g : grouping) (item : record)
    : grouping :=
  if trimmed_len item <? 20 then g
  else if (open_length g + trimmed_len item >? target_chars)
          && negb (bool_decide (open g = []))
  then {| closed := closed g ++ [open g];
          open := [item];
          open_length := trimmed_len item |}
  else {| closed := closed g;
          open := open g ++ [item];
          open_length := open_length g + trimmed_len item |}.

Definition finish (g : grouping) : list (list record) :=
  if negb (bool_decide (open g = [])) then closed g ++ [open g] else closed g.

(** The constituent records of the output chunks, chunk by chunk. *)
Definition constituents (raw_chunks : list record) (target_chars : Z)
    : list (list record) :=
  finish (foldl (group_step target_chars)
            {| closed := []; open := []; open_length := 0 |} raw_chunks).

(** The pre-join accumulated length of a group of records. *)
Definition accumulated_length (g : list record) : Z :=
  foldr (fun item n => trimmed_len item + n) 0 g.

(** The chunk lines 36-42 make of the records [g], given its id. *)
Definition chunk_of (i : pystr) (g : list record) : option chunk :=
  r ← head g;
  p ← r !! u "page";
  t ← r !! u "type";
  Some {| id := i; content := join (u ". ") (untrimmed <$> g);
          page := p; type := t; doc_name := u "support.pdf" |}.

(** [c] is the chunk made of the records [g]. *)
Definition made_of (c : chunk) (g : list record) : Prop :=
  chunk_of (id c) g = Some c.

(** A chunk without its id. *)
Definition payload (c : chunk) : pystr * value * value * pystr :=
  (content c, page c, type c, doc_name c).

(** The two progress lines of a run that returns [n] chunks. *)
Definition progress (raw_chunks : list record) (n : nat) : list pystr :=
  [ [0x1F52A%N] ++ u " Chunking " ++ str_of_int (Z.of_nat (length raw_chunks))
    ++ u " raw lines...";
    [0x2705%N] ++ u " Created " ++ str_of_int (Z.of_nat n)
    ++ u " semantic chunks" ].

(** A group of records is within the target, or it is one record that
    alone is longer than the target. *)
Definition bounded (target_chars : Z) (g : list record) : Prop :=
  accumulated_length g <= target_chars
  \/ exists item, g = [item] /\ target_chars < trimmed_len item.

(** What the fold of [group_step] keeps true of the records [seen]. *)
Definition grouping_inv (target_chars : Z) (seen : list record)
    (g : grouping) : Prop :=
  concat (closed g) ++ open g = filter kept seen
  /\ open_length g = accumulated_length (open g)
  /\ Forall (bounded target_chars) (closed g)
  /\ Forall (fun grp => grp <> []) (closed g)
  /\ (open g = [] \/ bounded target_chars (open g)).

(** The world after [n] more calls of [uuid.uuid4()]. *)
Definition drawn (n : nat) (w : world) : world :=
  {| stdout := stdout w; uuid_draws := (uuid_draws w + n)%nat;
     files := files w |}.

(** The ids of [cs] are the draws number [n], [n + 1], ... in order. *)
Definition ids_from (uuid : nat -> pystr) (n : nat) (cs : list chunk) : Prop :=
  forall i c, cs !! i = Some c -> id c = uuid (n + i)%nat.

(** The loop variables [st], reached from the world [w0], hold what the
    grouping [g] says. *)
Definition tracks (uuid : nat -> pystr) (w0 : world) (st : loop_state)
    (g : grouping) (w : world) : Prop :=
  Forall2 made_of (chunks st) (closed g)
  /\ ids_from uuid (uuid_draws w0) (chunks st)
  /\ current_chunk st = open g
  /\ current_length st = open_length g
  /\ w = drawn (length (closed g)) w0.

End ChunkAndIndex.

(* ===================================================================== *)
(** ** src/ingest.py *)
(* ===================================================================== *)

Module Ingest.

Import ChunkAndIndex.

(** An attribute the code reads with [getattr(o, name, default)]: the
    object may not have it ([Absent]); when it has it, it holds a value or
    Python's [None]. *)
Inductive attribute (A : Type) : Type :=
| Absent
| Holds (v : option A).
Arguments Absent {A}.
Arguments Holds {A} v.

(** [getattr(o, name, default)] as a JSON value: the default is taken
    only when the object does not have the attribute; a [None] it holds
    is what the call returns. *)
Definition getattr {A} (to_value : A -> value) (a : attribute A)
    (default : value) : value :=
  match a with
  | Absent => default
  | Holds None => VNone
  | Holds (Some x) => to_value x
  end.

(** The attributes of the analysis result that [analyze_document] reads.
    One read with [getattr] is an [attribute]. One tested with
    [hasattr(o, 'xs') and o.xs], or read as [o.x or default], is an
    [option]: [None] when the object does not have it or holds Python's
    [None], which those two forms do not tell apart. The content of a
    word is a [str], and the indices of a cell are [int]s, as the service
    gives them. *)
Record DocumentParagraph : Type := { paragraph_content : option pystr }.

Record DocumentLine : Type := {
  line_content : option pystr;
  confidence : attribute spec_float
}.

Record DocumentTableCell : Type := {
  row_index : Z;
  column_index : Z;
  cell_content : attribute pystr
}.

Record DocumentTable : Type := {
  cells : option (list DocumentTableCell);
  row_count : attribute Z;
  column_count : attribute Z
}.

Record DocumentWord : Type := { word_content : pystr }.

Record DocumentPage : Type := {
  page_number : attribute Z;
  paragraphs : option (list DocumentParagraph);
  lines : option (list DocumentLine);
  tables : option (list DocumentTable);
  words : option (list DocumentWord)
}.

Record AnalyzeResult : Type := { pages : option (list DocumentPage) }.

(** [hasattr(o, 'xs') and o.xs]: the attribute is there and not empty. *)
Definition present {A} (xs : option (list A)) : bool :=
  match xs with
  | Some (_ :: _) => true
  | _ => false
  end.

(** [xs or []], and iterating over an attribute found [present]. *)
Definition items {A} (xs : option (list A)) : list A := default [] xs.

(** [s or ""] *)
Definition or_empty (s : option pystr) : pystr := default [] s.

(** [0.0] *)
Definition float_zero : spec_float := S754_zero false.

(** [f"{v}"] for [v = getattr(o, name, '')] where the attribute is a
    [str] when it holds one: a [None] it holds is formatted as the word
    None. *)
Definition format_getattr (a : attribute pystr) : pystr :=
  match a with
  | Absent => []
  | Holds None => u "None"
  | Holds (Some s) => s
  end.

(** Line 55: the text of one table cell. *)
Definition cell_text (cell : DocumentTableCell) : pystr :=
  u "R" ++ str_of_int (row_index cell) ++ u "C"
  ++ str_of_int (column_index cell) ++ u ": "
  ++ format_getattr (cell_content cell).

(** Lines 29-73: the records one page appends to [content]. *)
Definition page_records (page : DocumentPage) : list record :=
  let page_num := getattr VInt (page_number page) (VStr (u "unknown")) in
  (if present (paragraphs page) then
     (fun para =>
        list_to_map [(u "type", VStr (u "paragraph"));
                     (u "content", VStr (or_empty (paragraph_content para)));
                     (u "page", page_num)])
     <$> items (paragraphs page)
   else if present (lines page) then
     (fun line =>
        list_to_map [(u "type", VStr (u "line"));
                     (u "content", VStr (or_empty (line_content line)));
                     (u "page", page_num);
                     (u "confidence",
                      getattr VFloat (confidence line) (VFloat float_zero))])
     <$> items (lines page)
   else [])
  ++
  (if present (tables page) then
     (fun table =>
        let table_content := cell_text <$> items (cells table) in
        list_to_map [(u "type", VStr (u "table"));
                     (u "content", VStr (join [10%N] table_content));
                     (u "page", page_num);
                     (u "rows", getattr VInt (row_count table) (VInt 0));
                     (u "cols", getattr VInt (column_count table) (VInt 0))])
     <$> items (tables page)
   else if present (words page) then
     let page_text := join (u " ") (word_content <$> items (words page)) in
     [list_to_map [(u "type", VStr (u "page_text"));
                   (u "content", VStr page_text);
                   (u "page", page_num)]]
   else []).

(** [item.get('type')]: the type of a record. *)
Definition type_of (item : record) : option value := item !! u "type".

(** A record with a type and a content that are both [str], as the
    preview of lines 100-101 needs. *)
Definition printable (item : record) : Prop :=
  exists t c, item !! u "type" = Some (VStr t)
              /\ item !! u "content" = Some (VStr c).

(** Lines 25-73: the loop over the pages. *)
Definition normalize (result : AnalyzeResult) : list record :=
  foldl (fun content page => content ++ page_records page) []
        (items (pages result)).

(** [os.path.basename(path)] on POSIX: what follows the last slash. *)
Definition basename (path : pystr) : pystr :=
  foldl (fun tail c => if (c =? 47)%N then [] else tail ++ [c]) [] path.

(** [s.replace(old, new)] for a non-empty [old]: the occurrences of [old]
    are replaced from left to right, without overlap. [skip] counts the
    characters of a match still to pass over. *)
Fixpoint replace_from (old new : pystr) (skip : nat) (s : pystr) : pystr :=
  match s with
  | [] => []
  | c :: s' =>
      match skip with
      | S k => replace_from old new k s'
      | O =>
          if bool_decide (take (length old) s = old)
          then new ++ replace_from old new (length old - 1) s'
          else c :: replace_from old new 0 s'
      end
  end.

Definition replace (old new s : pystr) : pystr := replace_from old new 0 s.

(** Line 94 *)
Definition output_path_of (blob_name : pystr) : pystr :=
  u "./output/" ++ replace (u ".pdf") [] blob_name ++ u ".json".

(** [json.dump(records, f)] into the file at [path] *)
Definition json_dump (path : pystr) (records : list record) : M unit :=
  fun w =>
    ({| stdout := stdout w; uuid_draws := uuid_draws w;
        files := <[path := VList (VDict <$> records)]> (files w) |},
     Returns tt).

(** [f"{v}"] and [v[:n]] are modelled for a [str], which is all that the
    records of [normalize] hold under "type" and "content". On any other
    value the model stops with this exception, which is the model's and
    not Python's. *)
Definition format_str (v : value) : M pystr :=
  match v with
  | VStr s => mret s
  | _ => raise {| exc_class := u "NotModelled";
                  exc_str := u "formatting a " ++ type_name v |}
  end.

Section Collaborators.

(** What the blob container does with [upload_blob(blob_name, f)], [f]
    being the local file at [local_path]: it returns or raises. Opening
    the file is part of the call. *)
Variable upload_blob : pystr -> pystr -> option Exception.

(** What opening [file_path] and the layout analysis of its bytes give:
    the poller's result, or an exception. *)
Variable begin_analyze_document : pystr -> outcome AnalyzeResult.

(** Lines 17-76 *)
Definition analyze_document (file_path : pystr) : M (list record) :=
  _ ← print ([0x1F50D%N] ++ u " Analyzing with Document Intelligence...");
  result ← (fun w => (w, begin_analyze_document file_path));
  let content := normalize result in
  _ ← print ([0x2705%N] ++ u " Extracted "
             ++ str_of_int (Z.of_nat (length content))
             ++ u " content elements");
  mret content.

(** Lines 100-101: one line of the preview. *)
Definition preview (acc : unit) (item : record) : M unit :=
  t ← getitem item (u "type");
  t ← format_str t;
  c ← getitem item (u "content");
  c ← format_str c;
  print (u "  " ++ t ++ u ": " ++ slice_to 100 c ++ u "...").

(** Lines 78-104. Getting the container client (line 80) and creating
    the output directory (line 93) change nothing that [world] keeps. *)
Definition ingest_file (local_path : pystr) : M (list record) :=
  let blob_name := basename local_path in
  _ ← print ([0x1F4E4%N] ++ u " Uploading " ++ blob_name ++ u "...");
  _ ← match upload_blob blob_name local_path with
      | None => mret tt
      | Some e => raise e
      end;
  _ ← print ([0x2705%N] ++ u " Blob upload complete");
  parsed ← analyze_document local_path;
  let output_path := output_path_of blob_name in
  _ ← json_dump output_path (take 500 parsed);
  _ ← print ([10%N; 0x1F4CB%N] ++ u " SAMPLE OUTPUT:");
  _ ← for_each preview (take 3 parsed) tt;
  _ ← print ([10%N; 0x1F389%N] ++ u " DAY 2 SUCCESS: "
             ++ str_of_int (Z.of_nat (length parsed))
             ++ u " elements " ++ [0x2192%N] ++ u " " ++ output_path);
  mret parsed.

End Collaborators.

End Ingest.

(* ===================================================================== *)
(** ** Sample inputs *)
(* ===================================================================== *)

Module Samples.

Import ChunkAndIndex Ingest.

(** A fresh process: nothing printed, drawn or written. *)
Definition fresh : world := {| stdout := []; uuid_draws := 0; files := ∅ |}.

(** A stand-in for the ids: the number of the draw, spelled out. *)
Definition numbered (n : nat) : pystr := u "id-" ++ str_of_int (Z.of_nat n).

(** A line record of the extraction stage. *)
Definition line_record (text : pystr) (page_num : Z) : record :=
  list_to_map [(u "type", VStr (u "line")); (u "content", VStr text);
               (u "page", VInt page_num)].

(** [n] times the letter [c]. *)
Definition letters (n : nat) (c : string) : pystr := mjoin (replicate n (u c)).

(** Records of trimmed lengths 30, 5 (a fragment), 40 and 950. *)
Definition four_lines : list record :=
  [ line_record (letters 30 "a") 1;
    line_record (u "  short   ") 1;
    line_record (u " " ++ letters 40 "b" ++ u "  ") 2;
    line_record (letters 950 "c") 3 ].

(** A record of the NIST document, as the script's own run loads it from
    ./output/nist-sp800-53.json; it even names its document. *)
Definition nist_line : record :=
  list_to_map [(u "type", VStr (u "line"));
               (u "content", VStr (u "AC-1 Policy and Procedures"));
               (u "page", VInt 1);
               (u "doc_name", VStr (u "nist-sp800-53.pdf"))].

(** Two records whose trimmed lengths are 30 and 40, the second padded. *)
Definition two_lines : list record :=
  [ line_record (letters 30 "a") 1;
    line_record (u " " ++ letters 40 "b" ++ u "  ") 2 ].


(** A record of trimmed length 970, and one of trimmed length 1200. *)
Definition line_970 : record := line_record (letters 970 "c") 2.
Definition line_1200 : record := line_record (letters 1200 "d") 1.

(** A scanned page as the layout model returns it: lines and words, no
    paragraphs and no tables of its own. *)
Definition scanned_page : DocumentPage :=
  {| page_number := Holds (Some 1);
     paragraphs := None;
     lines := Some [ {| line_content := Some (u "Access control policy");
                        confidence := Absent |} ];
     tables := None;
     words := Some [ {| word_content := u "Access" |};
                     {| word_content := u "control" |};
                     {| word_content := u "policy" |} ] |}.

(** A service that turns the request down. *)
Definition quota_exceeded : Exception :=
  {| exc_class := u "HttpResponseError";
     exc_str := u "(QuotaExceeded) Index quota has been exceeded" |}.

(** A configuration that names the search service, and one whose .env
    leaves AZURE_SEARCH_KEY out. *)
Definition workshop_endpoint : option pystr :=
  Some (u "https://rag-ai-search-workshop.search.windows.net").
Definition workshop_key : option pystr := Some (letters 52 "K").
Definition no_key : option pystr := None.

(** The check of azure-core's [AzureKeyCredential]: the key has to be a
    [str]. And a client constructor that accepts what it is given. *)
Definition key_must_be_str (key : option pystr) : option Exception :=
  match key with
  | Some _ => None
  | None => Some (TypeError (u "key must be a string."))
  end.
Definition index_client_built (endpoint key : option pystr)
    : option Exception := None.

(** An upload that goes through, and an analysis that returns one page. *)
Definition uploaded (blob_name local_path : pystr) : option Exception := None.
Definition one_page (file_path : pystr) : outcome AnalyzeResult :=
  Returns {| pages := Some [scanned_page] |}.

End Samples.

(* ===================================================================== *)
(** ** Notions the further properties are stated with *)
(* ===================================================================== *)

Module Notions.

Import ChunkAndIndex.

(** Each group was closed by the record that begins the next one: with
    that record added, the group would have been longer than the target. *)
Definition greedy (target_chars : Z) (gs : list (list record)) : Prop :=
  forall i g item rest,
    gs !! i = Some g -> gs !! S i = Some (item :: rest) ->
    target_chars < accumulated_length g + trimmed_len item.

(** A record whose content is a [str]: the filter of lines 29-31 can read
    it. *)
Definition readable (item : record) : Prop := is_Some (text_of item).

(** The value a record carries under "page" for a page: the number the
    page holds, [None] when it holds [None], and the string of line 29
    only when the page has no such attribute. *)
Definition page_value (page : Ingest.DocumentPage) : value :=
  match Ingest.page_number page with
  | Ingest.Holds (Some n) => VInt n
  | Ingest.Holds None => VNone
  | Ingest.Absent => VStr (u "unknown")
  end.

(** The four record types of the extraction stage. *)
Definition record_types : list pystr :=
  [u "paragraph"; u "line"; u "table"; u "page_text"].

(** The shape of a Content Record: a string content, one of the four
    types, and the page value of [page]. *)
Definition content_record_of (page : Ingest.DocumentPage) (item : record)
    : Prop :=
  is_Some (text_of item)
  /\ (exists t, item !! u "type" = Some (VStr t) /\ t ∈ record_types)
  /\ item !! u "page" = Some (page_value page).

End Notions.

(* ===================================================================== *)
(** ** The rest of src/chunk_and_index.py, and the two scripts *)
(* ===================================================================== *)

Module Pipeline.

Import ChunkAndIndex Ingest.

(** The attributes of an [IndexingResult]: [index_chunks] reads
    [succeeded]. *)
Record IndexingResult : Type := { result_key : pystr; succeeded : bool }.

(** A chunk as [json.dump] writes it: the dict of lines 36-42. *)
Definition chunk_json (c : chunk) : value :=
  VDict (list_to_map [(u "id", VStr (id c)); (u "content", VStr (content c));
                      (u "page", page c); (u "type", type c);
                      (u "doc_name", VStr (doc_name c))]).

(** The paths of lines 125 and 142 of chunk_and_index.py, and the
    argument of line 108 of ingest.py. *)
Definition input_path : pystr := u "./output/nist-sp800-53.json".
Definition chunks_path : pystr := u "./output/nist_chunks_indexed.json".
Definition source_path : pystr := u "./docs/nist-sp800-53.pdf".

(** A JSON document that is an array of objects, as a list of records. *)
Definition as_records (v : value) : option (list record) :=
  match v with
  | VList l =>
      mapM (fun x => match x with VDict d => Some d | _ => None end) l
  | _ => None
  end.

Definition FileNotFoundError (path : pystr) : Exception :=
  {| exc_class := u "FileNotFoundError";
     exc_str := u "[Errno 2] No such file or directory: '" ++ path ++ u "'" |}.

(** [with open(path, "r") as f: json.load(f)], modelled for a file that
    holds an array of objects, which is what the extraction stage writes.
    On any other JSON document the model stops with the exception
    "NotModelled", which is the model's and not Python's. *)
Definition json_load (path : pystr) : M (list record) := fun w =>
  match files w !! path with
  | None => (w, Raises (FileNotFoundError path))
  | Some v =>
      match as_records v with
      | Some records => (w, Returns records)
      | None => (w, Raises {| exc_class := u "NotModelled";
                              exc_str := u "loading a " ++ type_name v |})
      end
  end.

(** [with open(path, "w") as f: json.dump(chunks, f, indent=2)] *)
Definition json_dump_chunks (path : pystr) (chunks : list chunk) : M unit :=
  fun w =>
    ({| stdout := stdout w; uuid_draws := uuid_draws w;
        files := <[path := VList (chunk_json <$> chunks)]> (files w) |},
     Returns tt).

(** [sum(xs)] on ints: from 0, left to right. *)
Definition sum (xs : list Z) : Z := foldl Z.add 0 xs.

Section Collaborators.

(** [str(uuid.uuid4())] at its [n]-th call, the configuration of lines
    17-18, the constructors of the credential and of the index client and
    the search service's answer to [create_or_update_index], as in
    [ChunkAndIndex]. *)
Variable uuid : nat -> pystr.
Variable search_endpoint : option pystr.
Variable search_key : option pystr.
Variable AzureKeyCredential : option pystr -> option Exception.
Variable SearchIndexClient : option pystr -> option pystr -> option Exception.
Variable create_or_update_index : SearchIndex -> option Exception.

(** What [openai_client.embeddings.create(model=..., input=...)] does: it
    returns (the embedding is not looked at) or raises. *)
Variable embeddings_create : pystr -> list pystr -> option Exception.

(** What [SearchClient(endpoint=..., index_name=..., credential=...)]
    does with the endpoint, the index name and the key of the credential:
    it returns ([None]) or raises. *)
Variable SearchClient : option pystr -> pystr -> option pystr
                        -> option Exception.

(** What [search_client.upload_documents(chunks)] does: it returns the
    list of indexing results or raises. *)
Variable upload_documents : list chunk -> outcome (list IndexingResult).

(** What the blob container and the document analysis do, as in
    [Ingest]. *)
Variable upload_blob : pystr -> pystr -> option Exception.
Variable begin_analyze_document : pystr -> outcome AnalyzeResult.

(** Lines 87-98 *)
Definition test_openai_embedding : M bool :=
  try_except
    (_ ← match embeddings_create (u "text-embedding-3-small")
                 [u "test policy document"] with
         | None => mret tt
         | Some e => raise e
         end;
     _ ← print ([0x2705%N]
                ++ u " OpenAI key working: 1536-dim embeddings ready");
     mret true)
    (fun e =>
     _ ← print ([0x274C%N] ++ u " OpenAI error: " ++ exc_str e);
     mret false).

(** Lines 102-106: the arguments are evaluated first, so the credential
    is built before the client. *)
Definition new_search_client : M unit :=
  _ ← call (AzureKeyCredential search_key);
  call (SearchClient search_endpoint (u "itpolicy-nist-index") search_key).

(** Lines 100-119. *)
Definition index_chunks (chunks : list chunk) : M bool :=
  _ ← new_search_client;
  _ ← print ([0x1F4E4%N] ++ u " Indexing "
             ++ str_of_int (Z.of_nat (length chunks)) ++ u " chunks...");
  result ← (fun w => (w, upload_documents chunks));
  let succeeded_count :=
    sum ((fun _ => 1) <$> filter (fun r => succeeded r = true) result) in
  let failed := Z.of_nat (length chunks) - succeeded_count in
  _ ← print ([0x1F389%N] ++ u " SUCCESS: " ++ str_of_int succeeded_count
             ++ u "/" ++ str_of_int (Z.of_nat (length chunks))
             ++ u " indexed!");
  _ ← print (u "   Failed: " ++ str_of_int failed);
  _ ← (if failed >? 0 then print (u "   Check logs for details")
       else mret tt);
  mret (succeeded_count =? Z.of_nat (length chunks)).

(** Lines 121-156: the script, as a call that returns the exit status of
    the process: 1 where the script calls [exit(1)], 0 where it runs to
    its end. An exception nothing catches ends it as raised. *)
Definition chunk_and_index_main : M Z :=
  _ ← print ([0x1F680%N] ++ u " DAY 3: Chunking + Indexing (16 pages)");
  raw_content ← json_load input_path;
  _ ← print ([0x1F4C4%N] ++ u " Loaded "
             ++ str_of_int (Z.of_nat (length raw_content))
             ++ u " raw chunks from 16 pages");
  ok ← test_openai_embedding;
  if negb ok then
    _ ← print ([0x26A0%N; 0xFE0F%N]
               ++ u "  OpenAI key issue - fix .env then rerun");
    mret 1
  else
    _ ← create_simple_index search_endpoint search_key AzureKeyCredential
          SearchIndexClient create_or_update_index;
    chunks ← semantic_chunking uuid raw_content default_target_chars;
    _ ← json_dump_chunks chunks_path chunks;
    c ← first chunks;
    _ ← print ([0x1F4CB%N] ++ u " Sample: " ++ slice_to 150 (content c)
               ++ u "...");
    success ← index_chunks chunks;
    _ ← (if (success : bool) then
           _ ← print ([10%N; 0x1F389%N] ++ u " DAY 3 100% COMPLETE!");
           _ ← print ([0x2705%N] ++ u " Portal: rag-ai-search-workshop "
                      ++ [0x2192%N] ++ u " Indexes " ++ [0x2192%N]
                      ++ u " itpolicy-nist-index");
           _ ← print ([0x2705%N]
                      ++ u " Local: ./output/nist_chunks_indexed.json"
                      ++ u " (~50 chunks)");
           print ([0x2705%N] ++ u " Ready for Day 4: RAG queries!")
         else
           print ([10%N; 0x274C%N]
                  ++ u " Some indexing failed - check Azure Portal logs"));
    mret 0.

(** Lines 106-108 of ingest.py: the script. *)
Definition ingest_main : M Z :=
  _ ← ingest_file upload_blob begin_analyze_document source_path;
  mret 0.

End Collaborators.

(** The number of results that report success. *)
Definition successes (result : list IndexingResult) : nat :=
  length (filter (fun r => succeeded r = true) result).

End Pipeline.

Module MoreSamples.

Import ChunkAndIndex Ingest Pipeline.

(** A stand-in for the ids whose draws are all different: the [n]-th is
    [n] times the letter a. *)
Definition lettered (n : nat) : pystr := replicate n 97%N.

(** A record whose content is JSON's null. *)
Definition null_content : record :=
  list_to_map [(u "type", VStr (u "line")); (u "content", VNone);
               (u "page", VInt 1)].

(** A blob container that turns every upload down. *)
Definition refused (blob_name local_path : pystr) : option Exception :=
  Some Samples.quota_exceeded.

(** Two chunks, and a search service that indexes the first document of
    an upload and fails every other one. *)
Definition two_chunks : list chunk :=
  [ {| id := u "id-0"; content := Samples.letters 30 "a"; page := VInt 1;
       type := VStr (u "line"); doc_name := u "support.pdf" |};
    {| id := u "id-1"; content := Samples.letters 40 "b"; page := VInt 2;
       type := VStr (u "line"); doc_name := u "support.pdf" |} ].

Definition one_failed (chunks : list chunk) : outcome (list IndexingResult) :=
  Returns (imap (fun i c => {| result_key := id c;
                               succeeded := bool_decide (i = 0%nat) |})
             chunks).

(** The world the extraction stage leaves when it has written two line
    records. *)
Definition extracted : world :=
  {| stdout := []; uuid_draws := 0;
     files := {[ input_path := VList (VDict <$> Samples.two_lines) ]} |}.

(** The world the extraction stage leaves when all it found are two
    fragments: a page number and a running head. *)
Definition fragments : list record :=
  [ Samples.line_record (u "  17  ") 1;
    Samples.line_record (u "NIST SP 800-53") 1 ].

Definition only_fragments : world :=
  {| stdout := []; uuid_draws := 0;
     files := {[ input_path := VList (VDict <$> fragments) ]} |}.

(** A search client that is built whatever it is given, and a search
    service that answers every upload and indexes no document of it. *)
Definition search_client_built (endpoint : option pystr) (index_name : pystr)
    (key : option pystr) : option Exception := None.

Definition none_indexed (chunks : list chunk)
    : outcome (list IndexingResult) :=
  Returns ((fun c => {| result_key := id c; succeeded := false |})
           <$> chunks).

(** A page of the SDK whose number holds [None], with one paragraph. *)
Definition unnumbered_page : DocumentPage :=
  {| page_number := Holds None;
     paragraphs := Some [ {| paragraph_content :=
                               Some (u "Access control policy") |} ];
     lines := None; tables := None; words := None |}.

(** A table of one cell whose content holds [None]. *)
Definition table_page : DocumentPage :=
  {| page_number := Holds (Some 2);
     paragraphs := None; lines := None;
     tables := Some [ {| cells := Some [ {| row_index := 0;
                                            column_index := 1;
                                            cell_content := Holds None |} ];
                         row_count := Holds (Some 1);
                         column_count := Absent |} ];
     words := None |}.



End MoreSamples.

(* ===================================================================== *)
(** ** Facts about Python strings and about the monad *)
(* ===================================================================== *)

Import ChunkAndIndex.

Lemma lstrip_length (s : pystr) : (length (lstrip s) <= length s)%nat.
Proof.
  induction s as [|c s IH]; simpl; [lia|].
  destruct (is_space c); simpl; lia.
Qed.

Lemma strip_length (s : pystr) : len (strip s) <= len s.
Proof.
  unfold len, strip, rstrip. rewrite length_rev.
  pose proof (lstrip_length (rev (lstrip s))) as H1.
  pose proof (lstrip_length s) as H2.
  rewrite length_rev in H1. lia.
Qed.

Lemma len_nonneg (s : pystr) : 0 <= len s.
Proof. unfold len. lia. Qed.

Lemma join_cons (sep p : pystr) (parts : list pystr) :
  parts <> [] -> join sep (p :: parts) = p ++ sep ++ join sep parts.
Proof. destruct parts; [congruence | reflexivity]. Qed.

Lemma join_length_ge (sep p : pystr) (parts : list pystr) :
  p ∈ parts -> len p <= len (join sep parts).
Proof.
  unfold len. induction parts as [|q parts IH]; intros Hin.
  - by apply elem_of_nil in Hin.
  - destruct parts as [|q' parts].
    + apply list_elem_of_singleton in Hin as ->. simpl. lia.
    + rewrite join_cons by discriminate. rewrite !length_app.
      apply elem_of_cons in Hin as [-> | Hin]; [lia|].
      specialize (IH Hin). lia.
Qed.

Lemma bind_returns {A B} (m : M A) (k : A -> M B) (w w' : world) (a : A) :
  m w = (w', Returns a) -> (m ≫= k) w = k a w'.
Proof. intros H. unfold mbind, M_bind. by rewrite H. Qed.

Lemma bind_raises {A B} (m : M A) (k : A -> M B) (w w' : world) e :
  m w = (w', Raises e) -> (m ≫= k) w = (w', Raises e).
Proof. intros H. unfold mbind, M_bind. by rewrite H. Qed.

(** Whatever a bind returns, its first call returned before. *)
Lemma bind_inv {A B} (m : M A) (k : A -> M B) (w w' : world) (b : B) :
  (m ≫= k) w = (w', Returns b) ->
  exists w1 a, m w = (w1, Returns a) /\ k a w1 = (w', Returns b).
Proof.
  unfold mbind, M_bind. destruct (m w) as [w1 [a|e]]; [eauto | discriminate].
Qed.

(** A loop whose body keeps an invariant of the loop variables keeps it. *)
Lemma for_each_invariant {S A} (I : S -> Prop) (body : S -> A -> M S) :
  (forall st x w w' st', I st -> body st x w = (w', Returns st') -> I st') ->
  forall l st w w' st',
    I st -> for_each body l st w = (w', Returns st') -> I st'.
Proof.
  intros Hbody l. induction l as [|x l IH]; simpl; intros st w w' st' HI Hrun.
  - unfold mret, M_ret in Hrun. by inversion Hrun; subst.
  - apply bind_inv in Hrun as (w1 & st1 & H1 & H2). eauto.
Qed.

(* ===================================================================== *)
(** ** semantic_chunking and the records behind its chunks *)
(* ===================================================================== *)

Section Chunker.

Variable uuid : nat -> pystr.

Lemma well_formed_content (item : record) :
  well_formed item -> item !! u "content" = Some (VStr (untrimmed item)).
Proof.
  intros [[s Hs] _]. unfold untrimmed. rewrite Hs. simpl.
  unfold text_of in Hs. destruct (item !! u "content") as [[]|]; congruence.
Qed.

Lemma contents_returns (g : list record) (w : world) :
  Forall well_formed g ->
  mapM (fun c => getitem c (u "content")) g w
  = (w, Returns (VStr <$> (untrimmed <$> g))).
Proof.
  induction 1 as [|item g Hwf _ IH]; [reflexivity|].
  simpl. erewrite bind_returns; last first.
  { unfold getitem. by rewrite (well_formed_content item Hwf). }
  erewrite bind_returns by exact IH. reflexivity.
Qed.

Lemma str_parts_returns (i : Z) (ss : list pystr) (w : world) :
  str_parts i (VStr <$> ss) w = (w, Returns ss).
Proof.
  revert i. induction ss as [|s ss IH]; intros i; [reflexivity|].
  simpl. by erewrite bind_returns by apply IH.
Qed.

Lemma chunk_of_id (i : pystr) (g : list record) (c : chunk) :
  chunk_of i g = Some c -> id c = i.
Proof.
  unfold chunk_of. destruct (head g) as [r|]; simpl; [|discriminate].
  destruct (r !! u "page"); simpl; [|discriminate].
  destruct (r !! u "type"); simpl; [|discriminate].
  by intros [= <-].
Qed.

(** Closing a non-empty accumulator of well-formed records returns the
    chunk made of them, with the next draw as its id. *)
Lemma close_chunk_returns (g : list record) (w : world) :
  Forall well_formed g -> g <> [] ->
  exists c, close_chunk uuid g w = (drawn 1 w, Returns c)
            /\ chunk_of (uuid (uuid_draws w)) g = Some c.
Proof.
  intros Hwf Hne. destruct g as [|r g]; [done|].
  pose proof (Forall_inv Hwf) as (_ & [p Hp] & [t Ht]).
  assert (Hpage : forall w', getitem r (u "page") w' = (w', Returns p)).
  { intros w'. unfold getitem. by rewrite Hp. }
  assert (Htype : forall w', getitem r (u "type") w' = (w', Returns t)).
  { intros w'. unfold getitem. by rewrite Ht. }
  eexists. split.
  - unfold close_chunk.
    erewrite bind_returns by (unfold uuid4_str; reflexivity).
    erewrite bind_returns by (apply contents_returns; exact Hwf).
    erewrite bind_returns; last first.
    { unfold join_method.
      erewrite bind_returns by apply str_parts_returns. reflexivity. }
    erewrite bind_returns by reflexivity.
    erewrite bind_returns by apply Hpage.
    erewrite bind_returns by reflexivity.
    erewrite bind_returns by apply Htype.
    unfold drawn. rewrite Nat.add_1_r. reflexivity.
  - unfold chunk_of. cbn [head mbind option_bind]. rewrite Hp.
    cbn [mbind option_bind]. rewrite Ht. reflexivity.
Qed.

Lemma drawn_drawn (n m : nat) (w : world) :
  drawn m (drawn n w) = drawn (n + m) w.
Proof. unfold drawn. simpl. f_equal. lia. Qed.

Lemma ids_from_snoc (n : nat) (cs : list chunk) (c : chunk) :
  ids_from uuid n cs -> id c = uuid (n + length cs)%nat ->
  ids_from uuid n (cs ++ [c]).
Proof.
  intros Hcs Hc i c' Hi.
  apply lookup_app_Some in Hi as [Hi | [Hge Hi]]; [by apply Hcs|].
  apply list_lookup_singleton_Some in Hi as [Hi ->].
  rewrite Hc. f_equal. lia.
Qed.

(** One iteration on a well-formed record does what [group_step] says. *)
Lemma loop_body_tracks (target_chars : Z) (w0 w : world) (st : loop_state)
    (g : grouping) (item : record) :
  well_formed item -> Forall well_formed (open g) ->
  tracks uuid w0 st g w ->
  exists st' w',
    loop_body uuid target_chars st item w = (w', Returns st')
    /\ tracks uuid w0 st' (group_step target_chars g item) w'
    /\ Forall well_formed (open (group_step target_chars g item)).
Proof.
  intros Hitem Hopen (Hmade & Hids & Hcur & Hlen & Hw).
  unfold loop_body, group_step.
  erewrite bind_returns; last first.
  { unfold getitem. by rewrite (well_formed_content item Hitem). }
  erewrite bind_returns by reflexivity.
  fold (trimmed_len item).
  destruct (trimmed_len item <? 20) eqn:Hshort.
  { exists st, w. repeat split; done. }
  unfold accumulate. rewrite Hcur, Hlen.
  destruct ((open_length g + trimmed_len item >? target_chars)
            && negb (bool_decide (open g = []))) eqn:Hsplit.
  - apply andb_true_iff in Hsplit as [_ Hne].
    apply negb_true_iff, bool_decide_eq_false in Hne.
    destruct (close_chunk_returns (open g) w Hopen Hne) as (c & Hrun & Hc).
    erewrite bind_returns by exact Hrun.
    eexists _, _. split; [reflexivity|].
    pose proof (Forall2_length _ _ _ Hmade) as Hlength.
    split; [|by apply Forall_singleton].
    repeat split; simpl.
    + apply Forall2_app; [done|]. repeat constructor.
      unfold made_of. by rewrite (chunk_of_id _ _ _ Hc).
    + apply ids_from_snoc; [done|].
      rewrite (chunk_of_id _ _ _ Hc), Hw, Hlength. reflexivity.
    + rewrite Hw, drawn_drawn, length_app. reflexivity.
  - eexists _, _. split; [reflexivity|].
    split; [repeat split; done|].
    simpl. apply Forall_app. split; [done|]. by apply Forall_singleton.
Qed.

(** The whole loop on well-formed records does what the fold of
    [group_step] says. *)
Lemma loop_tracks (target_chars : Z) (w0 : world) (raw_chunks : list record) :
  Forall well_formed raw_chunks ->
  forall st g w,
    Forall well_formed (open g) -> tracks uuid w0 st g w ->
    exists st' w',
      for_each (loop_body uuid target_chars) raw_chunks st w
      = (w', Returns st')
      /\ tracks uuid w0 st' (foldl (group_step target_chars) g raw_chunks) w'
      /\ Forall well_formed
           (open (foldl (group_step target_chars) g raw_chunks)).
Proof.
  induction 1 as [|item raw Hitem _ IH]; intros st g w Hopen Htr.
  - exists st, w. split; [reflexivity | split; assumption].
  - destruct (loop_body_tracks target_chars w0 w st g item Hitem Hopen Htr)
      as (st1 & w1 & Hrun1 & Htr1 & Hopen1).
    destruct (IH st1 _ w1 Hopen1 Htr1) as (st' & w' & Hrun & Htr' & Hopen').
    exists st', w'. split; [|done].
    simpl. by erewrite bind_returns by exact Hrun1.
Qed.

(** On well-formed records [semantic_chunking] returns, and its chunks are
    made of the groups [constituents] lists, one chunk per group, with the
    draws of the run as ids. *)
Lemma semantic_chunking_run (raw_chunks : list record) (target_chars : Z)
    (w : world) :
  Forall well_formed raw_chunks ->
  exists cs,
    semantic_chunking uuid raw_chunks target_chars w
    = ({| stdout := stdout w ++ progress raw_chunks (length cs);
          uuid_draws := (uuid_draws w + length cs)%nat;
          files := files w |}, Returns cs)
    /\ Forall2 made_of cs (constituents raw_chunks target_chars)
    /\ ids_from uuid (uuid_draws w) cs.
Proof.
  intros Hwf. unfold semantic_chunking, constituents.
  erewrite bind_returns by reflexivity.
  set (w1 := {| stdout := _ |}).
  set (g0 := {| closed := []; open := []; open_length := 0 |}).
  set (st0 := {| chunks := []; current_chunk := []; current_length := 0 |}).
  assert (Htr0 : tracks uuid w1 st0 g0 w1).
  { repeat split; simpl; try done.
    unfold drawn. simpl. by rewrite Nat.add_0_r. }
  destruct (loop_tracks target_chars w1 raw_chunks Hwf st0 g0 w1
              (Forall_nil_2 _) Htr0)
    as (st & w2 & Hrun & (Hmade & Hids & Hcur & Hlen & Hw2) & Hopen).
  erewrite bind_returns by exact Hrun.
  set (g := foldl (group_step target_chars) g0 raw_chunks) in *.
  pose proof (Forall2_length _ _ _ Hmade) as Hlength.
  unfold finish. rewrite Hcur.
  destruct (negb (bool_decide (open g = []))) eqn:Hne.
  - apply negb_true_iff, bool_decide_eq_false in Hne.
    destruct (close_chunk_returns (open g) w2 Hopen Hne) as (c & Hclose & Hc).
    exists (chunks st ++ [c]).
    erewrite bind_returns; last first.
    { erewrite bind_returns by exact Hclose. reflexivity. }
    erewrite bind_returns by reflexivity.
    split; [|split].
    + unfold mret, M_ret, progress, drawn. subst w2 w1. simpl.
      rewrite length_app, <- Hlength, <- app_assoc. simpl.
      do 2 f_equal. lia.
    + apply Forall2_app; [done|]. repeat constructor.
      unfold made_of. by rewrite (chunk_of_id _ _ _ Hc).
    + apply ids_from_snoc; [done|].
      rewrite (chunk_of_id _ _ _ Hc), Hw2, Hlength. reflexivity.
  - exists (chunks st).
    erewrite bind_returns by reflexivity.
    erewrite bind_returns by reflexivity.
    split; [|done].
    unfold mret, M_ret, progress, drawn. subst w2 w1. simpl.
    rewrite <- Hlength, <- app_assoc. reflexivity.
Qed.

End Chunker.

(* ===================================================================== *)
(** ** The grouping of the records *)
(* ===================================================================== *)

Lemma accumulated_length_app (g1 g2 : list record) :
  accumulated_length (g1 ++ g2)
  = accumulated_length g1 + accumulated_length g2.
Proof.
  unfold accumulated_length.
  induction g1 as [|r g1 IH]; simpl; [lia|]. rewrite IH. lia.
Qed.

Lemma trimmed_len_nonneg (item : record) : 0 <= trimmed_len item.
Proof. apply len_nonneg. Qed.

Lemma accumulated_length_elem (g : list record) (item : record) :
  item ∈ g -> trimmed_len item <= accumulated_length g.
Proof.
  unfold accumulated_length.
  induction g as [|r g IH]; intros Hin; [by apply elem_of_nil in Hin|].
  simpl. apply elem_of_cons in Hin as [-> | Hin].
  - assert (0 <= foldr (fun item n => trimmed_len item + n) 0 g); [|lia].
    clear. induction g as [|r' g IH]; simpl; [lia|].
    pose proof (trimmed_len_nonneg r'). lia.
  - specialize (IH Hin). pose proof (trimmed_len_nonneg r). lia.
Qed.

Lemma bounded_singleton (target_chars : Z) (item : record) :
  bounded target_chars [item].
Proof.
  destruct (Z.le_gt_cases (trimmed_len item) target_chars) as [Hle | Hgt].
  - left. unfold accumulated_length. simpl. lia.
  - right. eauto.
Qed.

Lemma group_step_inv (target_chars : Z) (seen : list record) (g : grouping)
    (item : record) :
  grouping_inv target_chars seen g ->
  grouping_inv target_chars (seen ++ [item]) (group_step target_chars g item).
Proof.
  intros (Hcat & Hlen & Hclosed & Hne & Hopen).
  unfold group_step, grouping_inv. rewrite filter_app.
  destruct (trimmed_len item <? 20) eqn:Hshort.
  { apply Z.ltb_lt in Hshort.
    rewrite filter_cons_False by (unfold kept; lia).
    rewrite filter_nil, app_nil_r. done. }
  apply Z.ltb_ge in Hshort.
  rewrite filter_cons_True, filter_nil by exact Hshort.
  destruct ((open_length g + trimmed_len item >? target_chars)
            && negb (bool_decide (open g = []))) eqn:Hsplit; simpl.
  - apply andb_true_iff in Hsplit as [_ Hnonempty].
    apply negb_true_iff, bool_decide_eq_false in Hnonempty.
    destruct Hopen as [? | Hopen]; [done|].
    rewrite concat_app. simpl. rewrite app_nil_r, Hcat.
    repeat split.
    + unfold accumulated_length. simpl. lia.
    + apply Forall_app. split; [done|]. by apply Forall_singleton.
    + apply Forall_app. split; [done|]. by apply Forall_singleton.
    + right. apply bounded_singleton.
  - rewrite app_assoc, Hcat. repeat split; try done.
    + rewrite accumulated_length_app, Hlen.
      unfold accumulated_length. simpl. lia.
    + right. apply andb_false_iff in Hsplit as [Hle | Hempty].
      * left. rewrite accumulated_length_app, <- Hlen.
        unfold accumulated_length. simpl.
        rewrite Z.gtb_ltb in Hle. apply Z.ltb_ge in Hle. lia.
      * apply negb_false_iff, bool_decide_eq_true in Hempty.
        rewrite Hempty. apply bounded_singleton.
Qed.

Lemma foldl_group_step_inv (target_chars : Z) (raw_chunks : list record) :
  grouping_inv target_chars raw_chunks
    (foldl (group_step target_chars)
       {| closed := []; open := []; open_length := 0 |} raw_chunks).
Proof.
  induction raw_chunks as [|item raw IH] using rev_ind.
  - repeat split; simpl; auto.
  - rewrite foldl_snoc. by apply group_step_inv.
Qed.

(** The groups, put end to end, are the kept records in their order. *)
Lemma constituents_concat (raw_chunks : list record) (target_chars : Z) :
  concat (constituents raw_chunks target_chars) = filter kept raw_chunks.
Proof.
  destruct (foldl_group_step_inv target_chars raw_chunks) as (Hcat & _).
  unfold constituents, finish. rewrite <- Hcat.
  destruct (bool_decide (open _ = [])) eqn:Hopen; simpl.
  - apply bool_decide_eq_true in Hopen. by rewrite Hopen, app_nil_r.
  - rewrite concat_app. simpl. by rewrite app_nil_r.
Qed.

Lemma constituents_bounded (raw_chunks : list record) (target_chars : Z) :
  Forall (bounded target_chars) (constituents raw_chunks target_chars).
Proof.
  destruct (foldl_group_step_inv target_chars raw_chunks)
    as (_ & _ & Hclosed & _ & Hopen).
  unfold constituents, finish.
  destruct (bool_decide (open _ = [])) eqn:Hempty; simpl; [done|].
  apply bool_decide_eq_false in Hempty.
  apply Forall_app. split; [done|]. apply Forall_singleton. by destruct Hopen.
Qed.

Lemma constituents_nonempty (raw_chunks : list record) (target_chars : Z) :
  Forall (fun g => g <> []) (constituents raw_chunks target_chars).
Proof.
  destruct (foldl_group_step_inv target_chars raw_chunks)
    as (_ & _ & _ & Hne & _).
  unfold constituents, finish.
  destruct (bool_decide (open _ = [])) eqn:Hempty; simpl; [done|].
  apply bool_decide_eq_false in Hempty.
  apply Forall_app. split; [done|]. by apply Forall_singleton.
Qed.

Lemma elem_of_concat {A} (x : A) (l : list A) (ls : list (list A)) :
  x ∈ l -> l ∈ ls -> x ∈ concat ls.
Proof.
  intros Hx Hl. induction ls as [|l' ls IH]; [by apply elem_of_nil in Hl|].
  simpl. apply elem_of_app. apply elem_of_cons in Hl as [<- | Hl]; auto.
Qed.

(** Every record of every group passed the fragment filter and is a record
    of the input. *)
Lemma constituents_kept (raw_chunks : list record) (target_chars : Z)
    (g : list record) (item : record) :
  g ∈ constituents raw_chunks target_chars -> item ∈ g ->
  kept item /\ item ∈ raw_chunks.
Proof.
  intros Hg Hitem.
  pose proof (elem_of_concat _ _ _ Hitem Hg) as Hin.
  rewrite constituents_concat in Hin.
  apply list_elem_of_filter in Hin. tauto.
Qed.

(* ===================================================================== *)
(** ** semantic_chunking: the claims *)
(* ===================================================================== *)

Lemma made_of_content (c : chunk) (g : list record) :
  made_of c g -> content c = join (u ". ") (untrimmed <$> g).
Proof.
  unfold made_of, chunk_of. destruct (head g) as [r|]; simpl; [|discriminate].
  destruct (r !! u "page"); simpl; [|discriminate].
  destruct (r !! u "type"); simpl; [|discriminate].
  intros [= Hc]. by rewrite <- Hc at 1.
Qed.

Lemma made_of_payload (c c' : chunk) (g : list record) :
  made_of c g -> made_of c' g -> payload c = payload c'.
Proof.
  unfold made_of, chunk_of. destruct (head g) as [r|]; simpl; [|discriminate].
  destruct (r !! u "page"); simpl; [|discriminate].
  destruct (r !! u "type"); simpl; [|discriminate].
  intros [= Hc] [= Hc']. rewrite <- Hc, <- Hc'. reflexivity.
Qed.

(** C1: on every input sequence of Content Records, the records of trimmed
    length at least 20 are shared out among the output chunks, each to
    exactly one chunk and in their original order: the content of every
    chunk is the join of its group of records, and the groups put end to
    end are exactly the input records that pass the filter, so a record of
    trimmed length below 20 is in no chunk. *)
Theorem kept_records_partitioned (uuid : nat -> pystr)
    (raw_chunks : list record) (target_chars : Z) (w : world) :
  Forall well_formed raw_chunks ->
  exists w' cs,
    semantic_chunking uuid raw_chunks target_chars w = (w', Returns cs)
    /\ Forall2 (fun c g => content c = join (u ". ") (untrimmed <$> g))
         cs (constituents raw_chunks target_chars)
    /\ concat (constituents raw_chunks target_chars)
       = filter (fun item => 20 <= trimmed_len item) raw_chunks.
Proof.
  intros Hwf.
  destruct (semantic_chunking_run uuid raw_chunks target_chars w Hwf)
    as (cs & Hrun & Hmade & _).
  eexists _, cs. split; [exact Hrun|]. split.
  - eapply Forall2_impl; [exact Hmade|]. apply made_of_content.
  - apply constituents_concat.
Qed.

Lemma kept_records_partitioned_witness :
  Forall well_formed Samples.four_lines
  /\ exists w' cs,
      semantic_chunking Samples.numbered Samples.four_lines 1000 Samples.fresh
      = (w', Returns cs)
      /\ Forall2 (fun c g => content c = join (u ". ") (untrimmed <$> g))
           cs (constituents Samples.four_lines 1000)
      /\ concat (constituents Samples.four_lines 1000)
         = filter (fun item => 20 <= trimmed_len item) Samples.four_lines.
Proof.
  assert (H : Forall well_formed Samples.four_lines).
  { refine (bool_decide_unpack _ _). vm_compute. exact I. }
  split; [exact H|].
  exact (kept_records_partitioned Samples.numbered Samples.four_lines 1000
           Samples.fresh H).
Defined.

(** C2: on every input sequence and for every [target_chars], the pre-join
    accumulated length of each output chunk (the sum of the trimmed lengths
    of its records) is at most [target_chars], unless the chunk is a single
    record whose own trimmed length exceeds [target_chars]. *)
Theorem chunks_within_target (uuid : nat -> pystr)
    (raw_chunks : list record) (target_chars : Z) (w : world) :
  Forall well_formed raw_chunks ->
  exists w' cs,
    semantic_chunking uuid raw_chunks target_chars w = (w', Returns cs)
    /\ Forall2 made_of cs (constituents raw_chunks target_chars)
    /\ Forall (fun g =>
                 accumulated_length g <= target_chars
                 \/ exists item, g = [item] /\ target_chars < trimmed_len item)
         (constituents raw_chunks target_chars).
Proof.
  intros Hwf.
  destruct (semantic_chunking_run uuid raw_chunks target_chars w Hwf)
    as (cs & Hrun & Hmade & _).
  eexists _, cs. split; [exact Hrun|]. split; [exact Hmade|].
  apply constituents_bounded.
Qed.

Lemma chunks_within_target_witness :
  Forall well_formed Samples.four_lines
  /\ exists w' cs,
      semantic_chunking Samples.numbered Samples.four_lines 60 Samples.fresh
      = (w', Returns cs)
      /\ Forall2 made_of cs (constituents Samples.four_lines 60)
      /\ Forall (fun g =>
                   accumulated_length g <= 60
                   \/ exists item, g = [item] /\ 60 < trimmed_len item)
           (constituents Samples.four_lines 60).
Proof.
  assert (H : Forall well_formed Samples.four_lines).
  { refine (bool_decide_unpack _ _). vm_compute. exact I. }
  split; [exact H|].
  exact (chunks_within_target Samples.numbered Samples.four_lines 60
           Samples.fresh H).
Defined.

Lemma close_chunk_doc_name (uuid : nat -> pystr) (g : list record)
    (w w' : world) (c : chunk) :
  close_chunk uuid g w = (w', Returns c) -> doc_name c = u "support.pdf".
Proof.
  unfold close_chunk. intros H.
  repeat (apply bind_inv in H as (? & ? & _ & H)).
  unfold mret, M_ret in H. by inversion H.
Qed.

Lemma loop_body_doc_name (uuid : nat -> pystr) (target_chars : Z)
    (st st' : loop_state) (item : record) (w w' : world) :
  Forall (fun c => doc_name c = u "support.pdf") (chunks st) ->
  loop_body uuid target_chars st item w = (w', Returns st') ->
  Forall (fun c => doc_name c = u "support.pdf") (chunks st').
Proof.
  intros Hst H. unfold loop_body in H.
  apply bind_inv in H as (w1 & v & _ & H).
  apply bind_inv in H as (w2 & text & _ & H).
  destruct (len text <? 20).
  { unfold mret, M_ret in H. by inversion H; subst. }
  unfold accumulate in H.
  destruct (_ && _).
  - apply bind_inv in H as (w3 & c & Hc & H).
    unfold mret, M_ret in H. inversion H; subst; simpl.
    apply Forall_app. split; [done|]. apply Forall_singleton.
    by eapply close_chunk_doc_name.
  - unfold mret, M_ret in H. by inversion H; subst.
Qed.

(** C3, as the code has it: [semantic_chunking] takes the records and
    [target_chars] and nothing else, and whatever they are, every chunk it
    returns has the [doc_name] "support.pdf", the literal of lines 41 and
    56. *)
Theorem doc_name_is_support_pdf (uuid : nat -> pystr)
    (raw_chunks : list record) (target_chars : Z) (w w' : world)
    (cs : list chunk) :
  semantic_chunking uuid raw_chunks target_chars w = (w', Returns cs) ->
  Forall (fun c => doc_name c = u "support.pdf") cs.
Proof.
  unfold semantic_chunking. intros H.
  apply bind_inv in H as (w1 & [] & _ & H).
  apply bind_inv in H as (w2 & st & Hloop & H).
  apply bind_inv in H as (w3 & result & Hlast & H).
  apply bind_inv in H as (w4 & [] & _ & H).
  unfold mret, M_ret in H. inversion H; subst. clear H.
  assert (Hst : Forall (fun c => doc_name c = u "support.pdf") (chunks st)).
  { eapply (for_each_invariant
              (fun st => Forall (fun c => doc_name c = u "support.pdf")
                           (chunks st))); [| |exact Hloop].
    - intros. by eapply loop_body_doc_name.
    - constructor. }
  destruct (negb _).
  - apply bind_inv in Hlast as (w5 & c & Hc & Hlast).
    unfold mret, M_ret in Hlast. inversion Hlast; subst.
    apply Forall_app. split; [done|]. apply Forall_singleton.
    by eapply close_chunk_doc_name.
  - unfold mret, M_ret in Hlast. by inversion Hlast; subst.
Qed.

Lemma doc_name_is_support_pdf_witness :
  exists w' cs,
    semantic_chunking Samples.numbered Samples.two_lines 50 Samples.fresh
    = (w', Returns cs)
    /\ Forall (fun c => doc_name c = u "support.pdf") cs.
Proof.
  eexists _, _. split.
  - vm_compute. reflexivity.
  - eapply (doc_name_is_support_pdf Samples.numbered Samples.two_lines 50
              Samples.fresh).
    vm_compute. reflexivity.
Defined.

(** C3 as stated fails: the script's own caller chunks the NIST document,
    the record itself says so, and the chunk still carries "support.pdf";
    no argument of the call chooses the name. *)
Lemma doc_name_not_chosen_by_caller :
  snd (semantic_chunking Samples.numbered [Samples.nist_line] 1000
         Samples.fresh)
  = Returns [ {| id := u "id-0";
                 content := u "AC-1 Policy and Procedures";
                 page := VInt 1;
                 type := VStr (u "line");
                 doc_name := u "support.pdf" |} ]
  /\ u "support.pdf" <> u "nist-sp800-53.pdf".
Proof.
  split; [vm_compute; reflexivity|].
  intros H. vm_compute in H. discriminate H.
Qed.

(** C10: on every input sequence, the content of each output chunk is the
    ". "-join of the content strings of its records as stored, untrimmed;
    every chunk has at least one record, and its content is at least 20
    characters long. *)
Theorem chunk_content_is_untrimmed_join (uuid : nat -> pystr)
    (raw_chunks : list record) (target_chars : Z) (w : world) :
  Forall well_formed raw_chunks ->
  exists w' cs,
    semantic_chunking uuid raw_chunks target_chars w = (w', Returns cs)
    /\ Forall2 (fun c g =>
                  content c = join (u ". ") (untrimmed <$> g)
                  /\ g <> [] /\ 20 <= len (content c))
         cs (constituents raw_chunks target_chars).
Proof.
  intros Hwf.
  destruct (semantic_chunking_run uuid raw_chunks target_chars w Hwf)
    as (cs & Hrun & Hmade & _).
  eexists _, cs. split; [exact Hrun|].
  apply Forall2_same_length_lookup. split; [by eapply Forall2_length|].
  intros i c g Hc Hg.
  destruct (Forall2_lookup_l _ _ _ _ _ Hmade Hc) as (g' & Hg' & Hcg).
  assert (g' = g) as -> by congruence.
  apply list_elem_of_lookup_2 in Hg.
  pose proof (made_of_content _ _ Hcg) as Hcontent.
  pose proof (constituents_nonempty raw_chunks target_chars) as Hne.
  rewrite Forall_forall in Hne. specialize (Hne g Hg).
  split; [exact Hcontent|]. split; [exact Hne|].
  destruct g as [|item g]; [done|].
  destruct (constituents_kept raw_chunks target_chars (item :: g) item Hg)
    as [Hkept _]; [by left|].
  unfold kept, trimmed_len in Hkept.
  pose proof (strip_length (untrimmed item)) as Hstrip.
  pose proof (join_length_ge (u ". ") (untrimmed item)
                (untrimmed <$> item :: g)) as Hjoin.
  rewrite Hcontent. etrans; [exact Hkept|]. etrans; [exact Hstrip|].
  apply Hjoin. rewrite fmap_cons. by left.
Qed.

Lemma chunk_content_is_untrimmed_join_witness :
  Forall well_formed Samples.two_lines
  /\ exists w' cs,
      semantic_chunking Samples.numbered Samples.two_lines 1000 Samples.fresh
      = (w', Returns cs)
      /\ Forall2 (fun c g =>
                    content c = join (u ". ") (untrimmed <$> g)
                    /\ g <> [] /\ 20 <= len (content c))
           cs (constituents Samples.two_lines 1000).
Proof.
  assert (H : Forall well_formed Samples.two_lines).
  { refine (bool_decide_unpack _ _). vm_compute. exact I. }
  split; [exact H|].
  exact (chunk_content_is_untrimmed_join Samples.numbered Samples.two_lines
           1000 Samples.fresh H).
Defined.



Lemma elem_of_concat_inv {A} (x : A) (ls : list (list A)) :
  x ∈ concat ls -> exists l, l ∈ ls /\ x ∈ l.
Proof.
  induction ls as [|l ls IH]; simpl; intros Hx.
  - by apply elem_of_nil in Hx.
  - apply elem_of_app in Hx as [Hx | Hx].
    + exists l. split; [by left | done].
    + destruct (IH Hx) as (l' & Hl' & Hx'). exists l'. split; [by right|done].
Qed.

(** In a bounded group, a record longer than the target is alone. *)
Lemma bounded_oversize (target_chars : Z) (g : list record) (item : record) :
  bounded target_chars g -> item ∈ g -> target_chars < trimmed_len item ->
  g = [item].
Proof.
  intros [Hle | (item' & -> & _)] Hin Hgt.
  - pose proof (accumulated_length_elem g item Hin). lia.
  - by apply list_elem_of_singleton in Hin as ->.
Qed.

(** C5, as the code has it: a record that passes the fragment filter and
    whose own trimmed length exceeds [target_chars] is a chunk by itself,
    whole. A chunk that holds a record longer than [target_chars] holds
    nothing else and its content is the content of the record as stored,
    and every such record of the input of trimmed length at least 20 has
    its chunk. In particular one record of trimmed length 1200 with
    [target_chars = 1000] gives exactly one chunk, that record alone. *)
Theorem oversize_record_is_own_chunk :
  (forall (uuid : nat -> pystr) (raw_chunks : list record) (target_chars : Z)
          (w : world),
     Forall well_formed raw_chunks ->
     exists w' cs,
       semantic_chunking uuid raw_chunks target_chars w = (w', Returns cs)
       /\ Forall2 made_of cs (constituents raw_chunks target_chars)
       /\ (forall i c g item,
             cs !! i = Some c ->
             constituents raw_chunks target_chars !! i = Some g ->
             item ∈ g -> target_chars < trimmed_len item ->
             g = [item] /\ content c = untrimmed item)
       /\ (forall item,
             item ∈ raw_chunks -> 20 <= trimmed_len item ->
             target_chars < trimmed_len item ->
             exists i c,
               cs !! i = Some c
               /\ constituents raw_chunks target_chars !! i = Some [item]
               /\ content c = untrimmed item))
  /\ (forall (uuid : nat -> pystr) (item : record) (w : world),
        well_formed item -> trimmed_len item = 1200 ->
        exists w' c,
          semantic_chunking uuid [item] 1000 w = (w', Returns [c])
          /\ constituents [item] 1000 = [[item]]
          /\ content c = untrimmed item).
Proof.
  split.
  - intros uuid raw_chunks target_chars w Hwf.
    destruct (semantic_chunking_run uuid raw_chunks target_chars w Hwf)
      as (cs & Hrun & Hmade & _).
    pose proof (constituents_bounded raw_chunks target_chars) as Hbounded.
    rewrite Forall_forall in Hbounded.
    assert (Halone : forall i c g item,
              cs !! i = Some c ->
              constituents raw_chunks target_chars !! i = Some g ->
              item ∈ g -> target_chars < trimmed_len item ->
              g = [item] /\ content c = untrimmed item).
    { intros i c g item Hc Hg Hin Hgt.
      destruct (Forall2_lookup_l _ _ _ _ _ Hmade Hc) as (g' & Hg' & Hcg).
      assert (g' = g) as -> by congruence.
      apply list_elem_of_lookup_2 in Hg.
      pose proof (bounded_oversize _ _ _ (Hbounded g Hg) Hin Hgt) as ->.
      split; [reflexivity|]. by rewrite (made_of_content _ _ Hcg). }
    eexists _, cs. split; [exact Hrun|]. split; [exact Hmade|].
    split; [exact Halone|].
    intros item Hin Hkept Hgt.
    assert (Hcat : item ∈ concat (constituents raw_chunks target_chars)).
    { rewrite constituents_concat. apply list_elem_of_filter. by split. }
    apply elem_of_concat_inv in Hcat as (g & Hg & Hitem).
    apply list_elem_of_lookup_1 in Hg as [i Hi].
    destruct (Forall2_lookup_r _ _ _ _ _ Hmade Hi) as (c & Hc & _).
    destruct (Halone i c g item Hc Hi Hitem Hgt) as [-> Hcontent].
    by exists i, c.
  - intros uuid item w Hwf Hlen.
    assert (Hgroups : constituents [item] 1000 = [[item]]).
    { unfold constituents. simpl. unfold group_step. rewrite Hlen.
      reflexivity. }
    destruct (semantic_chunking_run uuid [item] 1000 w) as (cs & Hrun & Hmade & _).
    { by apply Forall_singleton. }
    rewrite Hgroups in Hmade.
    apply Forall2_cons_inv_r in Hmade as (c & cs' & Hc & Hnil & ->).
    apply Forall2_nil_inv_r in Hnil as ->.
    eexists _, c. split; [exact Hrun|]. split; [exact Hgroups|].
    by rewrite (made_of_content _ _ Hc).
Qed.

Lemma oversize_record_is_own_chunk_witness :
  well_formed Samples.line_1200 /\ trimmed_len Samples.line_1200 = 1200
  /\ exists w' c,
      semantic_chunking Samples.numbered [Samples.line_1200] 1000
        Samples.fresh = (w', Returns [c])
      /\ constituents [Samples.line_1200] 1000 = [[Samples.line_1200]]
      /\ content c = untrimmed Samples.line_1200.
Proof.
  assert (H1 : well_formed Samples.line_1200).
  { refine (bool_decide_unpack _ _). vm_compute. exact I. }
  assert (H2 : trimmed_len Samples.line_1200 = 1200).
  { vm_compute. reflexivity. }
  split; [exact H1|]. split; [exact H2|].
  exact (proj2 oversize_record_is_own_chunk Samples.numbered
           Samples.line_1200 Samples.fresh H1 H2).
Defined.

(** C5 as stated fails below the fragment filter: with [target_chars = 0]
    the record "short" is longer than the target, and line 30 drops it all
    the same, so it becomes no chunk. *)
Lemma short_record_over_target_is_dropped :
  trimmed_len (Samples.line_record (u "short") 1) = 5
  /\ 0 < 5
  /\ semantic_chunking Samples.numbered [Samples.line_record (u "short") 1] 0
       Samples.fresh
     = ({| stdout := progress [Samples.line_record (u "short") 1] 0;
           uuid_draws := 0; files := ∅ |}, Returns []).
Proof.
  split; [vm_compute; reflexivity|]. split; [lia|]. vm_compute. reflexivity.
Qed.

Lemma made_of_payloads (cs1 cs2 : list chunk) (gs : list (list record)) :
  Forall2 made_of cs1 gs -> Forall2 made_of cs2 gs ->
  payload <$> cs1 = payload <$> cs2.
Proof.
  intros H1. revert cs2.
  induction H1 as [|c1 g cs1 gs Hc1 _ IH]; intros cs2 H2.
  - by apply Forall2_nil_inv_r in H2 as ->.
  - apply Forall2_cons_inv_r in H2 as (c2 & cs2' & Hc2 & H2 & ->).
    rewrite !fmap_cons. f_equal; [by eapply made_of_payload | by apply IH].
Qed.

(** C6, as the code has it: [semantic_chunking] is total on well-formed
    Content Records and determined by its input except for the ids. It
    returns without raising, having printed its two progress lines and
    drawn one [uuid4] per chunk, which is the chunk's id, and having
    written no file; the content, page, type and doc_name of the chunks
    are the same whatever the draws and the world; and on the empty input
    it returns the empty list. *)
Theorem semantic_chunking_total_up_to_ids :
  (forall (uuid : nat -> pystr) (raw_chunks : list record) (target_chars : Z)
          (w : world),
     Forall well_formed raw_chunks ->
     exists cs,
       semantic_chunking uuid raw_chunks target_chars w
       = ({| stdout := stdout w ++ progress raw_chunks (length cs);
             uuid_draws := (uuid_draws w + length cs)%nat;
             files := files w |}, Returns cs)
       /\ ids_from uuid (uuid_draws w) cs)
  /\ (forall (uuid1 uuid2 : nat -> pystr) (raw_chunks : list record)
             (target_chars : Z) (w1 w2 w1' w2' : world) (cs1 cs2 : list chunk),
        Forall well_formed raw_chunks ->
        semantic_chunking uuid1 raw_chunks target_chars w1 = (w1', Returns cs1) ->
        semantic_chunking uuid2 raw_chunks target_chars w2 = (w2', Returns cs2) ->
        payload <$> cs1 = payload <$> cs2)
  /\ (forall (uuid : nat -> pystr) (target_chars : Z) (w : world),
        snd (semantic_chunking uuid [] target_chars w) = Returns []).
Proof.
  split; [|split].
  - intros uuid raw_chunks target_chars w Hwf.
    destruct (semantic_chunking_run uuid raw_chunks target_chars w Hwf)
      as (cs & Hrun & _ & Hids).
    by exists cs.
  - intros uuid1 uuid2 raw_chunks target_chars w1 w2 w1' w2' cs1 cs2 Hwf H1 H2.
    destruct (semantic_chunking_run uuid1 raw_chunks target_chars w1 Hwf)
      as (cs1' & Hrun1 & Hmade1 & _).
    destruct (semantic_chunking_run uuid2 raw_chunks target_chars w2 Hwf)
      as (cs2' & Hrun2 & Hmade2 & _).
    rewrite Hrun1 in H1. rewrite Hrun2 in H2.
    inversion H1; inversion H2; subst.
    by eapply made_of_payloads.
  - intros uuid target_chars w. reflexivity.
Qed.

Lemma semantic_chunking_total_up_to_ids_witness :
  Forall well_formed Samples.two_lines
  /\ exists cs,
      semantic_chunking Samples.numbered Samples.two_lines 50 Samples.fresh
      = ({| stdout := stdout Samples.fresh
                      ++ progress Samples.two_lines (length cs);
            uuid_draws := (uuid_draws Samples.fresh + length cs)%nat;
            files := files Samples.fresh |}, Returns cs)
      /\ ids_from Samples.numbered (uuid_draws Samples.fresh) cs.
Proof.
  assert (H : Forall well_formed Samples.two_lines).
  { refine (bool_decide_unpack _ _). vm_compute. exact I. }
  split; [exact H|].
  exact (proj1 semantic_chunking_total_up_to_ids Samples.numbered
           Samples.two_lines 50 Samples.fresh H).
Defined.

(** C6 as stated fails: [semantic_chunking] is not pure. Two runs on the
    same record, from the same world, return different chunks when
    [uuid4] draws differently, and each run leaves the world changed: two
    lines printed, one id drawn. *)
Lemma semantic_chunking_is_not_pure :
  semantic_chunking (fun _ => u "1b4e28ba") [Samples.nist_line] 1000
    Samples.fresh
  = ({| stdout := progress [Samples.nist_line] 1;
        uuid_draws := 1;
        files := ∅ |},
     Returns [ {| id := u "1b4e28ba";
                  content := u "AC-1 Policy and Procedures";
                  page := VInt 1; type := VStr (u "line");
                  doc_name := u "support.pdf" |} ])
  /\ semantic_chunking (fun _ => u "6fa459ea") [Samples.nist_line] 1000
       Samples.fresh
     = ({| stdout := progress [Samples.nist_line] 1;
           uuid_draws := 1;
           files := ∅ |},
        Returns [ {| id := u "6fa459ea";
                     content := u "AC-1 Policy and Procedures";
                     page := VInt 1; type := VStr (u "line");
                     doc_name := u "support.pdf" |} ])
  /\ u "1b4e28ba" <> u "6fa459ea"
  /\ stdout Samples.fresh <> progress [Samples.nist_line] 1.
Proof.
  split; [vm_compute; reflexivity|]. split; [vm_compute; reflexivity|].
  split; intros H; vm_compute in H; discriminate H.
Qed.

(* ===================================================================== *)
(** ** create_simple_index *)
(* ===================================================================== *)

(** Building the client comes first and is not inside the [try]: what
    the constructors raise, [create_simple_index] raises, and nothing is
    printed. *)
Lemma new_index_client_run
    (search_endpoint search_key : option pystr)
    (AzureKeyCredential : option pystr -> option Exception)
    (SearchIndexClient : option pystr -> option pystr -> option Exception)
    (w : world) :
  new_index_client search_endpoint search_key AzureKeyCredential
    SearchIndexClient w
  = (w, match AzureKeyCredential search_key with
        | Some e => Raises e
        | None =>
            match SearchIndexClient search_endpoint search_key with
            | Some e => Raises e
            | None => Returns tt
            end
        end).
Proof.
  unfold new_index_client, call.
  destruct (AzureKeyCredential search_key) as [e|]; [reflexivity|].
  erewrite bind_returns by reflexivity.
  destruct (SearchIndexClient search_endpoint search_key); reflexivity.
Qed.

Lemma create_simple_index_client_raises
    (search_endpoint search_key : option pystr)
    (AzureKeyCredential : option pystr -> option Exception)
    (SearchIndexClient : option pystr -> option pystr -> option Exception)
    (create_or_update_index : SearchIndex -> option Exception)
    (w : world) (e : Exception) :
  AzureKeyCredential search_key = Some e
  \/ (AzureKeyCredential search_key = None
      /\ SearchIndexClient search_endpoint search_key = Some e) ->
  create_simple_index search_endpoint search_key AzureKeyCredential
    SearchIndexClient create_or_update_index w
  = (w, Raises e).
Proof.
  intros H. unfold create_simple_index.
  erewrite bind_raises; [reflexivity|].
  rewrite new_index_client_run.
  destruct H as [-> | [-> ->]]; reflexivity.
Qed.

(** What [create_simple_index] does once the client is built. *)
Lemma create_simple_index_run
    (search_endpoint search_key : option pystr)
    (AzureKeyCredential : option pystr -> option Exception)
    (SearchIndexClient : option pystr -> option pystr -> option Exception)
    (create_or_update_index : SearchIndex -> option Exception) (w : world) :
  AzureKeyCredential search_key = None ->
  SearchIndexClient search_endpoint search_key = None ->
  create_simple_index search_endpoint search_key AzureKeyCredential
    SearchIndexClient create_or_update_index w
  = ({| stdout := stdout w
                  ++ [match create_or_update_index simple_index with
                      | None =>
                          [0x2705%N]
                          ++ u " SIMPLE INDEX created: itpolicy-nist-index"
                      | Some e =>
                          [0x2705%N] ++ u " Index exists: "
                          ++ slice_to 100 (exc_str e) ++ u "..."
                      end];
        uuid_draws := uuid_draws w; files := files w |}, Returns true).
Proof.
  intros Hkey Hclient. unfold create_simple_index.
  erewrite bind_returns
    by (rewrite new_index_client_run, Hkey, Hclient; reflexivity).
  unfold try_except, call_create_or_update_index.
  destruct (create_or_update_index simple_index) as [e|]; reflexivity.
Qed.

(** C8, as the code has it: the [try] of line 79 holds the
    create-or-update call only. Once the index client is built, that is
    when the constructors of lines 64-67 return, [create_simple_index]
    lets no exception out and returns [True] in every case: whether the
    create-or-update call returns or raises, whatever it raises, the
    function returns [True] having printed one line, which for a raised
    exception reports the index as existing already. *)
Theorem create_simple_index_returns_true
    (search_endpoint search_key : option pystr)
    (AzureKeyCredential : option pystr -> option Exception)
    (SearchIndexClient : option pystr -> option pystr -> option Exception)
    (create_or_update_index : SearchIndex -> option Exception) (w : world) :
  AzureKeyCredential search_key = None ->
  SearchIndexClient search_endpoint search_key = None ->
  exists line,
    create_simple_index search_endpoint search_key AzureKeyCredential
      SearchIndexClient create_or_update_index w
    = ({| stdout := stdout w ++ [line]; uuid_draws := uuid_draws w;
          files := files w |}, Returns true)
    /\ line = match create_or_update_index simple_index with
              | None =>
                  [0x2705%N] ++ u " SIMPLE INDEX created: itpolicy-nist-index"
              | Some e =>
                  [0x2705%N] ++ u " Index exists: "
                  ++ slice_to 100 (exc_str e) ++ u "..."
              end.
Proof.
  intros Hkey Hclient. unfold create_simple_index.
  erewrite bind_returns; last first.
  { unfold new_index_client, call. rewrite Hkey.
    erewrite bind_returns by reflexivity.
    rewrite Hclient. reflexivity. }
  unfold try_except, call_create_or_update_index.
  destruct (create_or_update_index simple_index) as [e|];
    eexists; (split; [reflexivity|reflexivity]).
Qed.

Lemma create_simple_index_returns_true_witness :
  Samples.key_must_be_str Samples.workshop_key = None
  /\ Samples.index_client_built Samples.workshop_endpoint Samples.workshop_key
     = None
  /\ exists line,
      create_simple_index Samples.workshop_endpoint Samples.workshop_key
        Samples.key_must_be_str Samples.index_client_built
        (fun _ => Some Samples.quota_exceeded) Samples.fresh
      = ({| stdout := stdout Samples.fresh ++ [line];
            uuid_draws := uuid_draws Samples.fresh;
            files := files Samples.fresh |}, Returns true)
      /\ line = match (fun _ : SearchIndex => Some Samples.quota_exceeded)
                       simple_index with
                | None =>
                    [0x2705%N]
                    ++ u " SIMPLE INDEX created: itpolicy-nist-index"
                | Some e =>
                    [0x2705%N] ++ u " Index exists: "
                    ++ slice_to 100 (exc_str e) ++ u "..."
                end.
Proof.
  split; [reflexivity|]. split; [reflexivity|].
  exact (create_simple_index_returns_true Samples.workshop_endpoint
           Samples.workshop_key Samples.key_must_be_str
           Samples.index_client_built (fun _ => Some Samples.quota_exceeded)
           Samples.fresh eq_refl eq_refl).
Defined.

(** C8 fails as stated: the function does let an exception out. With
    AZURE_SEARCH_KEY not set the key is [None], the credential of line 66
    is refused with [TypeError] before the [try] is entered, and the call
    raises it, having printed nothing, although the service would have
    created the index. *)
Lemma create_simple_index_raises_without_key :
  create_simple_index Samples.workshop_endpoint Samples.no_key
    Samples.key_must_be_str Samples.index_client_built (fun _ => None)
    Samples.fresh
  = (Samples.fresh, Raises (TypeError (u "key must be a string."))).
Proof. vm_compute. reflexivity. Qed.

(** A quota error of the service is reported as an index that exists. *)
Example create_simple_index_masks_failure :
  create_simple_index Samples.workshop_endpoint Samples.workshop_key
    Samples.key_must_be_str Samples.index_client_built
    (fun _ => Some Samples.quota_exceeded) Samples.fresh
  = ({| stdout := [ [0x2705%N] ++ u " Index exists: "
                    ++ u "(QuotaExceeded) Index quota has been exceeded"
                    ++ u "..." ];
        uuid_draws := 0; files := ∅ |}, Returns true).
Proof. vm_compute. reflexivity. Qed.

(* ===================================================================== *)
(** ** analyze_document and ingest_file *)
(* ===================================================================== *)

Import Ingest.

(** A page yields a page_text record exactly when it has words and no
    tables, whatever its paragraphs and lines. *)
Lemma page_text_iff (page : DocumentPage) :
  Some (VStr (u "page_text")) ∈ type_of <$> page_records page
  <-> present (tables page) = false /\ present (words page) = true.
Proof.
  unfold page_records. rewrite fmap_app, elem_of_app. split.
  - intros [H | H].
    + exfalso. destruct (present (paragraphs page)); [|destruct (present (lines page))].
      * apply list_elem_of_fmap in H as (r & Hr & Hin).
        apply list_elem_of_fmap in Hin as (para & -> & _).
        vm_compute in Hr. discriminate Hr.
      * apply list_elem_of_fmap in H as (r & Hr & Hin).
        apply list_elem_of_fmap in Hin as (line & -> & _).
        vm_compute in Hr. discriminate Hr.
      * by apply elem_of_nil in H.
    + destruct (present (tables page)); [|destruct (present (words page))].
      * exfalso. apply list_elem_of_fmap in H as (r & Hr & Hin).
        apply list_elem_of_fmap in Hin as (table & -> & _).
        vm_compute in Hr. discriminate Hr.
      * done.
      * by apply elem_of_nil in H.
  - intros [-> ->]. right. rewrite list_fmap_singleton.
    apply list_elem_of_singleton. reflexivity.
Qed.

(** C7 fails on the code: the words fallback of line 67 is the [elif] of
    the tables test of line 51, not of the paragraphs and lines chain. A
    page with one line, its three words and no tables yields the line
    record and a page_text record besides, with the same text. *)
Theorem page_text_beside_lines :
  (fun item => (type_of item, text_of item))
  <$> page_records Samples.scanned_page
  = [ (Some (VStr (u "line")), Some (u "Access control policy"));
      (Some (VStr (u "page_text")), Some (u "Access control policy")) ].
Proof. vm_compute. reflexivity. Qed.

Lemma page_records_printable (page : DocumentPage) :
  Forall printable (page_records page).
Proof.
  unfold page_records. apply Forall_app. split.
  - destruct (present (paragraphs page)); [|destruct (present (lines page))];
      [| |constructor]; apply Forall_fmap, Forall_true; intros x;
      eexists _, _; split; reflexivity.
  - destruct (present (tables page)); [|destruct (present (words page))];
      [| |constructor].
    + apply Forall_fmap, Forall_true; intros x.
      eexists _, _; split; reflexivity.
    + apply Forall_singleton. eexists _, _; split; reflexivity.
Qed.

Lemma normalize_printable (result : AnalyzeResult) :
  Forall printable (normalize result).
Proof.
  unfold normalize.
  assert (H : forall ps acc, Forall printable acc ->
            Forall printable
              (foldl (fun content page => content ++ page_records page)
                 acc ps)).
  { induction ps as [|page ps IH]; intros acc Hacc; [done|].
    simpl. apply IH. apply Forall_app. split; [done|].
    apply page_records_printable. }
  apply H. constructor.
Qed.

(** The preview prints one line per record and touches nothing else. *)
Lemma preview_returns (l : list record) (w : world) :
  Forall printable l ->
  exists out,
    for_each preview l tt w
    = ({| stdout := stdout w ++ out; uuid_draws := uuid_draws w;
          files := files w |}, Returns tt).
Proof.
  intros Hl. revert w. induction Hl as [|item l (t & c & Ht & Hc) _ IH];
    intros w.
  - exists []. simpl. rewrite app_nil_r. by destruct w.
  - simpl.
    set (w1 := {| stdout := stdout w
                    ++ [u "  " ++ t ++ u ": " ++ slice_to 100 c ++ u "..."];
                  uuid_draws := uuid_draws w; files := files w |}).
    destruct (IH w1) as (out & Hrun).
    exists ((u "  " ++ t ++ u ": " ++ slice_to 100 c ++ u "...") :: out).
    rewrite (bind_returns (preview tt item) _ w w1 tt); last first.
    { unfold preview.
      erewrite bind_returns by (unfold getitem; rewrite Ht; reflexivity).
      erewrite bind_returns by reflexivity.
      erewrite bind_returns by (unfold getitem; rewrite Hc; reflexivity).
      erewrite bind_returns by reflexivity.
      reflexivity. }
    rewrite Hrun. subst w1. simpl.
    by rewrite <- app_assoc.
Qed.

(** C9: whatever sequence of N records the extraction yields, the JSON
    array [ingest_file] writes is its first min(N, 500) records in order:
    the file at the output path holds [parsed[:500]], which agrees with
    the sequence at every index below 500 and has nothing from index 500
    on, while the function still returns the whole sequence. *)
Theorem ingest_file_writes_first_500
    (upload_blob : pystr -> pystr -> option Exception)
    (begin_analyze_document : pystr -> outcome AnalyzeResult)
    (local_path : pystr) (w : world) (result : AnalyzeResult) :
  upload_blob (basename local_path) local_path = None ->
  begin_analyze_document local_path = Returns result ->
  exists w',
    ingest_file upload_blob begin_analyze_document local_path w
    = (w', Returns (normalize result))
    /\ files w'
       = <[output_path_of (basename local_path)
           := VList (VDict <$> take 500 (normalize result))]> (files w)
    /\ length (take 500 (normalize result))
       = (length (normalize result) `min` 500)%nat
    /\ (forall i, (i < 500)%nat ->
          take 500 (normalize result) !! i = normalize result !! i)
    /\ (forall i, (500 <= i)%nat -> take 500 (normalize result) !! i = None).
Proof.
  intros Hupload Hanalyze. unfold ingest_file. rewrite Hupload.
  erewrite bind_returns by reflexivity.
  erewrite bind_returns by reflexivity.
  erewrite bind_returns by reflexivity.
  erewrite bind_returns; last first.
  { unfold analyze_document.
    erewrite bind_returns by reflexivity.
    erewrite bind_returns by (rewrite Hanalyze; reflexivity).
    erewrite bind_returns by reflexivity.
    reflexivity. }
  erewrite bind_returns by reflexivity.
  erewrite bind_returns by reflexivity.
  cbn [stdout uuid_draws files].
  lazymatch goal with
  | |- context [mbind _ (for_each preview ?l tt) ?w1] =>
      destruct (preview_returns l w1) as (out & Hpreview)
  end.
  { apply Forall_take, normalize_printable. }
  erewrite bind_returns by exact Hpreview.
  erewrite bind_returns by reflexivity.
  eexists. split; [reflexivity|]. split; [reflexivity|].
  split; [rewrite length_take; lia|]. split.
  - intros i Hi. by apply lookup_take_lt.
  - intros i Hi. by apply lookup_take_ge.
Qed.

Lemma ingest_file_writes_first_500_witness :
  exists w',
    ingest_file Samples.uploaded Samples.one_page (u "./docs/support.pdf")
      Samples.fresh
    = (w', Returns (normalize {| pages := Some [Samples.scanned_page] |}))
    /\ files w'
       = <[output_path_of (basename (u "./docs/support.pdf"))
           := VList (VDict <$> take 500
                       (normalize {| pages := Some [Samples.scanned_page] |}))]>
           (files Samples.fresh)
    /\ length (take 500 (normalize {| pages := Some [Samples.scanned_page] |}))
       = (length (normalize {| pages := Some [Samples.scanned_page] |})
          `min` 500)%nat
    /\ (forall i, (i < 500)%nat ->
          take 500 (normalize {| pages := Some [Samples.scanned_page] |}) !! i
          = normalize {| pages := Some [Samples.scanned_page] |} !! i)
    /\ (forall i, (500 <= i)%nat ->
          take 500 (normalize {| pages := Some [Samples.scanned_page] |}) !! i
          = None).
Proof.
  exact (ingest_file_writes_first_500 Samples.uploaded Samples.one_page
           (u "./docs/support.pdf") Samples.fresh
           {| pages := Some [Samples.scanned_page] |} eq_refl eq_refl).
Defined.

(* ===================================================================== *)
(** ** The worked examples of the specification, on the model *)
(* ===================================================================== *)

(** A single fragment gives no chunk. *)
Example fragment_alone_gives_nothing :
  snd (semantic_chunking Samples.numbered
         [Samples.line_record (u "short") 1] default_target_chars
         Samples.fresh)
  = Returns [].
Proof. vm_compute. reflexivity. Qed.

(** Records of lengths 30, 40 and 950, with a fragment among them: the
    first two merge, the third is a chunk alone, the fragment is dropped. *)
Example thirty_forty_nine_fifty :
  constituents Samples.four_lines default_target_chars
  = [ [Samples.line_record (Samples.letters 30 "a") 1;
       Samples.line_record (u " " ++ Samples.letters 40 "b" ++ u "  ") 2];
      [Samples.line_record (Samples.letters 950 "c") 3] ]
  /\ (fun c => (id c, len (content c), page c))
     <$> match snd (semantic_chunking Samples.numbered Samples.four_lines
                      default_target_chars Samples.fresh) with
         | Returns cs => cs
         | Raises _ => []
         end
     = [ (u "id-0", 30 + 2 + 43, VInt 1); (u "id-1", 950, VInt 3) ].
Proof. split; vm_compute; reflexivity. Qed.

(** A record without content stops the run with Python's [KeyError]. *)
Example missing_content_raises :
  snd (semantic_chunking Samples.numbered [∅] default_target_chars
         Samples.fresh)
  = Raises (KeyError (u "content")).
Proof. vm_compute. reflexivity. Qed.

(** The script's own input path gives the output path of line 94. *)
Example output_path_of_nist :
  output_path_of (basename (u "./docs/nist-sp800-53.pdf"))
  = u "./output/nist-sp800-53.json".
Proof. vm_compute. reflexivity. Qed.

(* ===================================================================== *)
(** ** semantic_chunking: further properties *)
(* ===================================================================== *)

(** The groups and the draws determine the chunks. *)
Lemma made_of_ids_unique (uuid : nat -> pystr) (n : nat)
    (cs cs' : list chunk) (gs : list (list record)) :
  Forall2 made_of cs gs -> Forall2 made_of cs' gs ->
  ids_from uuid n cs -> ids_from uuid n cs' -> cs = cs'.
Proof.
  intros Hcs Hcs' Hids Hids'. apply list_eq_same_length with (length gs).
  - by eapply Forall2_length.
  - by eapply Forall2_length.
  - intros i c c' _ Hc Hc'.
    destruct (Forall2_lookup_l _ _ _ _ _ Hcs Hc) as (g & Hg & Hmade).
    destruct (Forall2_lookup_l _ _ _ _ _ Hcs' Hc') as (g' & Hg' & Hmade').
    assert (g' = g) as -> by congruence.
    unfold made_of in *. rewrite (Hids i c Hc) in Hmade.
    rewrite (Hids' i c' Hc') in Hmade'. congruence.
Qed.

(** X1: the page and the type of every chunk are those of the first record
    of its group, whatever the records merged after it hold. *)
Theorem chunk_page_and_type_of_first_record (uuid : nat -> pystr)
    (raw_chunks : list record) (target_chars : Z) (w : world) :
  Forall well_formed raw_chunks ->
  exists w' cs,
    semantic_chunking uuid raw_chunks target_chars w = (w', Returns cs)
    /\ Forall2 (fun c g =>
                  exists item, head g = Some item
                               /\ item !! u "page" = Some (page c)
                               /\ item !! u "type" = Some (type c))
         cs (constituents raw_chunks target_chars).
Proof.
  intros Hwf.
  destruct (semantic_chunking_run uuid raw_chunks target_chars w Hwf)
    as (cs & Hrun & Hmade & _).
  eexists _, cs. split; [exact Hrun|].
  eapply Forall2_impl; [exact Hmade|]. intros c g.
  unfold made_of, chunk_of. destruct (head g) as [item|]; simpl; [|discriminate].
  destruct (item !! u "page") as [p|] eqn:Hp; simpl; [|discriminate].
  destruct (item !! u "type") as [t|] eqn:Ht; simpl; [|discriminate].
  intros [= Hc]. exists item. rewrite <- Hc. simpl. by rewrite Hp, Ht.
Qed.

Lemma chunk_page_and_type_of_first_record_witness :
  Forall well_formed Samples.four_lines
  /\ exists w' cs,
      semantic_chunking Samples.numbered Samples.four_lines 1000 Samples.fresh
      = (w', Returns cs)
      /\ Forall2 (fun c g =>
                    exists item, head g = Some item
                                 /\ item !! u "page" = Some (page c)
                                 /\ item !! u "type" = Some (type c))
           cs (constituents Samples.four_lines 1000).
Proof.
  assert (H : Forall well_formed Samples.four_lines).
  { refine (bool_decide_unpack _ _). vm_compute. exact I. }
  split; [exact H|].
  exact (chunk_page_and_type_of_first_record Samples.numbered
           Samples.four_lines 1000 Samples.fresh H).
Defined.

(** X2: a run draws one id per chunk, and when the draws are pairwise
    different so are the ids of the chunks. *)
Theorem chunk_ids_distinct (uuid : nat -> pystr)
    (raw_chunks : list record) (target_chars : Z) (w : world) :
  (forall i j, uuid i = uuid j -> i = j) ->
  Forall well_formed raw_chunks ->
  exists w' cs,
    semantic_chunking uuid raw_chunks target_chars w = (w', Returns cs)
    /\ uuid_draws w' = (uuid_draws w + length cs)%nat
    /\ NoDup (id <$> cs).
Proof.
  intros Hinj Hwf.
  destruct (semantic_chunking_run uuid raw_chunks target_chars w Hwf)
    as (cs & Hrun & _ & Hids).
  eexists _, cs. split; [exact Hrun|]. split; [reflexivity|].
  apply NoDup_alt. intros i j x Hi Hj.
  apply list_lookup_fmap_Some in Hi as (c & -> & Hc).
  apply list_lookup_fmap_Some in Hj as (c' & Heq & Hc').
  rewrite (Hids i c Hc), (Hids j c' Hc') in Heq.
  apply Hinj in Heq. lia.
Qed.

Lemma chunk_ids_distinct_witness :
  (forall i j, MoreSamples.lettered i = MoreSamples.lettered j -> i = j)
  /\ Forall well_formed Samples.two_lines
  /\ exists w' cs,
      semantic_chunking MoreSamples.lettered Samples.two_lines 50
        Samples.fresh = (w', Returns cs)
      /\ uuid_draws w' = (uuid_draws Samples.fresh + length cs)%nat
      /\ NoDup (id <$> cs).
Proof.
  assert (H1 : forall i j,
            MoreSamples.lettered i = MoreSamples.lettered j -> i = j).
  { intros i j H. apply (f_equal length) in H.
    unfold MoreSamples.lettered in H. by rewrite !length_replicate in H. }
  assert (H2 : Forall well_formed Samples.two_lines).
  { refine (bool_decide_unpack _ _). vm_compute. exact I. }
  split; [exact H1|]. split; [exact H2|].
  exact (chunk_ids_distinct MoreSamples.lettered Samples.two_lines 50
           Samples.fresh H1 H2).
Defined.

Import Notions.

Lemma open_empty_closed_empty (target_chars : Z) (raw_chunks : list record) :
  open (foldl (group_step target_chars)
          {| closed := []; open := []; open_length := 0 |} raw_chunks) = [] ->
  closed (foldl (group_step target_chars)
            {| closed := []; open := []; open_length := 0 |} raw_chunks) = [].
Proof.
  induction raw_chunks as [|item raw IH] using rev_ind; [done|].
  rewrite foldl_snoc. unfold group_step at 1 3.
  destruct (trimmed_len item <? 20); [done|].
  destruct (_ && _); simpl; [done|].
  intros H. by apply app_eq_nil in H as [_ ?].
Qed.

Lemma greedy_foldl (target_chars : Z) (raw_chunks : list record) :
  greedy target_chars
    (closed (foldl (group_step target_chars)
               {| closed := []; open := []; open_length := 0 |} raw_chunks)
     ++ [open (foldl (group_step target_chars)
                 {| closed := []; open := []; open_length := 0 |}
                 raw_chunks)]).
Proof.
  induction raw_chunks as [|item raw IH] using rev_ind.
  { intros [|i] g it rest Hi Hsi; simpl in *; [discriminate|done]. }
  rewrite foldl_snoc.
  pose proof (open_empty_closed_empty target_chars raw) as Hempty.
  destruct (foldl_group_step_inv target_chars raw) as (_ & Hlen & _).
  set (g := foldl _ _ raw) in *.
  unfold group_step.
  destruct (trimmed_len item <? 20); [exact IH|].
  destruct ((open_length g + trimmed_len item >? target_chars)
            && negb (bool_decide (open g = []))) eqn:Hsplit; simpl.
  - apply andb_true_iff in Hsplit as [Hgt _].
    rewrite Z.gtb_ltb in Hgt. apply Z.ltb_lt in Hgt.
    intros i grp it rest Hi Hsi.
    apply lookup_app_Some in Hsi as [Hsi | [Hge Hsi]].
    + apply (IH i grp it rest); [|exact Hsi].
      apply lookup_lt_Some in Hsi.
      rewrite lookup_app_l in Hi by lia. exact Hi.
    + apply list_lookup_singleton_Some in Hsi as [Hidx [= <- <-]].
      rewrite length_app in Hge, Hidx. simpl in Hge, Hidx.
      assert (i = length (closed g)) as -> by lia.
      rewrite lookup_app_l in Hi by (rewrite length_app; simpl; lia).
      rewrite list_lookup_middle in Hi by reflexivity.
      injection Hi as <-. lia.
  - intros i grp it rest Hi Hsi.
    apply lookup_app_Some in Hsi as [Hsi | [Hge Hsi]].
    + apply (IH i grp it rest).
      * apply lookup_lt_Some in Hsi.
        rewrite lookup_app_l in Hi by lia.
        by apply lookup_app_l_Some.
      * by apply lookup_app_l_Some.
    + apply list_lookup_singleton_Some in Hsi as [Hidx Heq].
      assert (S i = length (closed g)) as Hsi' by lia.
      destruct (open g) as [|it' rest'] eqn:Hopen.
      { rewrite Hempty in Hsi' by reflexivity. discriminate. }
      simpl in Heq. injection Heq as <- _.
      apply (IH i grp it' rest').
      * rewrite lookup_app_l in Hi by lia. by apply lookup_app_l_Some.
      * rewrite Hsi'. by apply list_lookup_middle.
Qed.

Lemma greedy_constituents (target_chars : Z) (raw_chunks : list record) :
  greedy target_chars (constituents raw_chunks target_chars).
Proof.
  pose proof (greedy_foldl target_chars raw_chunks) as H.
  pose proof (open_empty_closed_empty target_chars raw_chunks) as Hempty.
  unfold constituents, finish.
  destruct (bool_decide (open _ = [])) eqn:Hopen; simpl; [|exact H].
  apply bool_decide_eq_true in Hopen. rewrite (Hempty Hopen).
  intros i g it rest Hi. by destruct i.
Qed.

(** X3: the chunker is greedy. Between two consecutive output chunks, the
    accumulated length of the first plus the trimmed length of the record
    that begins the second exceeds [target_chars]: no chunk is closed
    while its next record would still fit. *)
Theorem chunks_are_greedy (uuid : nat -> pystr)
    (raw_chunks : list record) (target_chars : Z) (w : world) :
  Forall well_formed raw_chunks ->
  exists w' cs,
    semantic_chunking uuid raw_chunks target_chars w = (w', Returns cs)
    /\ Forall2 made_of cs (constituents raw_chunks target_chars)
    /\ forall i g item rest,
         constituents raw_chunks target_chars !! i = Some g ->
         constituents raw_chunks target_chars !! S i = Some (item :: rest) ->
         target_chars < accumulated_length g + trimmed_len item.
Proof.
  intros Hwf.
  destruct (semantic_chunking_run uuid raw_chunks target_chars w Hwf)
    as (cs & Hrun & Hmade & _).
  eexists _, cs. split; [exact Hrun|]. split; [exact Hmade|].
  apply greedy_constituents.
Qed.

Lemma chunks_are_greedy_witness :
  Forall well_formed Samples.four_lines
  /\ exists w' cs,
      semantic_chunking Samples.numbered Samples.four_lines 1000 Samples.fresh
      = (w', Returns cs)
      /\ Forall2 made_of cs (constituents Samples.four_lines 1000)
      /\ forall i g item rest,
           constituents Samples.four_lines 1000 !! i = Some g ->
           constituents Samples.four_lines 1000 !! S i = Some (item :: rest) ->
           1000 < accumulated_length g + trimmed_len item.
Proof.
  assert (H : Forall well_formed Samples.four_lines).
  { refine (bool_decide_unpack _ _). vm_compute. exact I. }
  split; [exact H|].
  exact (chunks_are_greedy Samples.numbered Samples.four_lines 1000
           Samples.fresh H).
Defined.

Lemma accumulated_length_nonneg (g : list record) : 0 <= accumulated_length g.
Proof.
  unfold accumulated_length. induction g as [|r g IH]; simpl; [lia|].
  pose proof (trimmed_len_nonneg r). lia.
Qed.

Lemma accumulated_length_cons (item : record) (g : list record) :
  accumulated_length (item :: g) = trimmed_len item + accumulated_length g.
Proof. reflexivity. Qed.

Lemma singletons_concat {A} (gs : list (list A)) :
  Forall (fun g => exists x, g = [x]) gs ->
  gs = (fun x => [x]) <$> concat gs.
Proof.
  induction 1 as [|g gs [x ->] _ IH]; [done|].
  change (concat ([x] :: gs)) with (x :: concat gs).
  rewrite fmap_cons. by f_equal.
Qed.

(** X4: with [target_chars] below 40 no two records share a chunk: there
    is one chunk per record that passes the fragment filter, in order, and
    its content is the content of that record as stored. *)
Theorem small_target_one_chunk_per_record (uuid : nat -> pystr)
    (raw_chunks : list record) (target_chars : Z) (w : world) :
  target_chars < 40 ->
  Forall well_formed raw_chunks ->
  exists w' cs,
    semantic_chunking uuid raw_chunks target_chars w = (w', Returns cs)
    /\ constituents raw_chunks target_chars
       = (fun item => [item])
         <$> filter (fun item => 20 <= trimmed_len item) raw_chunks
    /\ content <$> cs
       = untrimmed <$> filter (fun item => 20 <= trimmed_len item) raw_chunks.
Proof.
  intros Hsmall Hwf.
  destruct (semantic_chunking_run uuid raw_chunks target_chars w Hwf)
    as (cs & Hrun & Hmade & _).
  assert (Hgroups : constituents raw_chunks target_chars
                    = (fun item => [item]) <$> filter kept raw_chunks).
  { rewrite <- (constituents_concat raw_chunks target_chars).
    apply singletons_concat.
    pose proof (constituents_bounded raw_chunks target_chars) as Hb.
    apply Forall_forall. intros g Hg.
    rewrite Forall_forall in Hb. specialize (Hb g Hg).
    destruct Hb as [Hle | (item & -> & _)]; [|by eexists].
    destruct g as [|r1 [|r2 g]].
    - pose proof (constituents_nonempty raw_chunks target_chars) as Hne.
      rewrite Forall_forall in Hne. by destruct (Hne [] Hg).
    - by eexists.
    - exfalso.
      destruct (constituents_kept _ _ _ r1 Hg) as [H1 _]; [by left|].
      destruct (constituents_kept _ _ _ r2 Hg) as [H2 _];
        [by right; left|].
      unfold kept in H1, H2. unfold accumulated_length in Hle.
      simpl in Hle. fold (accumulated_length g) in Hle.
      pose proof (accumulated_length_nonneg g). lia. }
  eexists _, cs. split; [exact Hrun|]. split; [exact Hgroups|].
  rewrite Hgroups in Hmade. clear Hgroups Hrun.
  change (filter (fun item => 20 <= trimmed_len item) raw_chunks)
    with (filter kept raw_chunks).
  revert Hmade. generalize (filter kept raw_chunks). intros l.
  revert cs. induction l as [|item l IH]; intros cs Hmade.
  - by apply Forall2_nil_inv_r in Hmade as ->.
  - rewrite fmap_cons in Hmade.
    apply Forall2_cons_inv_r in Hmade as (c & cs' & Hc & Hmade & ->).
    rewrite !fmap_cons. f_equal; [|by apply IH].
    by rewrite (made_of_content _ _ Hc).
Qed.

Lemma small_target_one_chunk_per_record_witness :
  0 < 40 /\ Forall well_formed Samples.four_lines
  /\ exists w' cs,
      semantic_chunking Samples.numbered Samples.four_lines 0 Samples.fresh
      = (w', Returns cs)
      /\ constituents Samples.four_lines 0
         = (fun item => [item])
           <$> filter (fun item => 20 <= trimmed_len item) Samples.four_lines
      /\ content <$> cs
         = untrimmed
           <$> filter (fun item => 20 <= trimmed_len item) Samples.four_lines.
Proof.
  assert (H1 : 0 < 40) by reflexivity.
  assert (H2 : Forall well_formed Samples.four_lines).
  { refine (bool_decide_unpack _ _). vm_compute. exact I. }
  split; [exact H1|]. split; [exact H2|].
  exact (small_target_one_chunk_per_record Samples.numbered
           Samples.four_lines 0 Samples.fresh H1 H2).
Defined.

(** X5: when all the records that pass the fragment filter fit in
    [target_chars] together, they make one chunk, whose content is the
    join of them all. *)
Theorem large_target_single_chunk (uuid : nat -> pystr)
    (raw_chunks : list record) (target_chars : Z) (w : world) :
  Forall well_formed raw_chunks ->
  filter (fun item => 20 <= trimmed_len item) raw_chunks <> [] ->
  accumulated_length (filter (fun item => 20 <= trimmed_len item) raw_chunks)
  <= target_chars ->
  exists w' c,
    semantic_chunking uuid raw_chunks target_chars w = (w', Returns [c])
    /\ content c
       = join (u ". ")
           (untrimmed
            <$> filter (fun item => 20 <= trimmed_len item) raw_chunks).
Proof.
  intros Hwf Hsome Hfit.
  destruct (semantic_chunking_run uuid raw_chunks target_chars w Hwf)
    as (cs & Hrun & Hmade & _).
  pose proof (constituents_concat raw_chunks target_chars) as Hcat.
  pose proof (constituents_nonempty raw_chunks target_chars) as Hne.
  pose proof (greedy_constituents target_chars raw_chunks) as Hgreedy.
  change (filter (fun item => 20 <= trimmed_len item) raw_chunks)
    with (filter kept raw_chunks) in *.
  assert (Hone : constituents raw_chunks target_chars
                 = [filter kept raw_chunks]).
  { destruct (constituents raw_chunks target_chars) as [|g [|g' gs]].
    - simpl in Hcat. congruence.
    - simpl in Hcat. rewrite app_nil_r in Hcat. by rewrite Hcat.
    - exfalso. destruct g' as [|item rest].
      { apply Forall_cons in Hne as [_ Hne].
        by apply Forall_cons in Hne as [? _]. }
      specialize (Hgreedy 0%nat g item rest eq_refl eq_refl).
      rewrite <- Hcat in Hfit.
      change (concat (g :: (item :: rest) :: gs))
        with (g ++ (item :: rest) ++ concat gs) in Hfit.
      rewrite !accumulated_length_app, accumulated_length_cons in Hfit.
      pose proof (accumulated_length_nonneg rest).
      pose proof (accumulated_length_nonneg (concat gs)). lia. }
  rewrite Hone in Hmade.
  apply Forall2_cons_inv_r in Hmade as (c & cs' & Hc & Hnil & ->).
  apply Forall2_nil_inv_r in Hnil as ->.
  eexists _, c. split; [exact Hrun|]. by apply made_of_content.
Qed.

Lemma large_target_single_chunk_witness :
  Forall well_formed Samples.two_lines
  /\ filter (fun item => 20 <= trimmed_len item) Samples.two_lines <> []
  /\ accumulated_length
       (filter (fun item => 20 <= trimmed_len item) Samples.two_lines) <= 70
  /\ exists w' c,
      semantic_chunking Samples.numbered Samples.two_lines 70 Samples.fresh
      = (w', Returns [c])
      /\ content c
         = join (u ". ")
             (untrimmed
              <$> filter (fun item => 20 <= trimmed_len item)
                    Samples.two_lines).
Proof.
  assert (H1 : Forall well_formed Samples.two_lines).
  { refine (bool_decide_unpack _ _). vm_compute. exact I. }
  assert (H2 : filter (fun item => 20 <= trimmed_len item) Samples.two_lines
               <> []).
  { intros H. vm_compute in H. discriminate H. }
  assert (H3 : accumulated_length
                 (filter (fun item => 20 <= trimmed_len item)
                    Samples.two_lines) <= 70).
  { intros H. vm_compute in H. discriminate H. }
  split; [exact H1|]. split; [exact H2|]. split; [exact H3|].
  exact (large_target_single_chunk Samples.numbered Samples.two_lines 70
           Samples.fresh H1 H2 H3).
Defined.

Lemma length_concat_ge {A} (gs : list (list A)) :
  Forall (fun g => g <> []) gs -> (length gs <= length (concat gs))%nat.
Proof.
  induction 1 as [|g gs Hg _ IH]; simpl; [lia|].
  rewrite length_app. destruct g; [done|]. simpl. lia.
Qed.

(** X6: there are never more chunks than records that pass the fragment
    filter, and the output is empty exactly when no record passes it. *)
Theorem chunk_count_bounds (uuid : nat -> pystr)
    (raw_chunks : list record) (target_chars : Z) (w : world) :
  Forall well_formed raw_chunks ->
  exists w' cs,
    semantic_chunking uuid raw_chunks target_chars w = (w', Returns cs)
    /\ (length cs
        <= length (filter (fun item => (20 <= trimmed_len item)%Z)
                     raw_chunks))%nat
    /\ (cs = []
        <-> filter (fun item => 20 <= trimmed_len item) raw_chunks = []).
Proof.
  intros Hwf.
  destruct (semantic_chunking_run uuid raw_chunks target_chars w Hwf)
    as (cs & Hrun & Hmade & _).
  pose proof (constituents_concat raw_chunks target_chars) as Hcat.
  pose proof (constituents_nonempty raw_chunks target_chars) as Hne.
  pose proof (Forall2_length _ _ _ Hmade) as Hlen.
  pose proof (length_concat_ge _ Hne) as Hge.
  change (filter (fun item => 20 <= trimmed_len item) raw_chunks)
    with (filter kept raw_chunks).
  rewrite Hcat in Hge.
  eexists _, cs. split; [exact Hrun|]. split; [lia|]. split.
  - intros ->. simpl in Hlen.
    destruct (constituents raw_chunks target_chars); [|discriminate].
    by rewrite <- Hcat.
  - intros Hnone. rewrite Hnone in Hge. simpl in Hge.
    destruct cs; [done|]. simpl in Hlen. lia.
Qed.

Lemma chunk_count_bounds_witness :
  Forall well_formed Samples.four_lines
  /\ exists w' cs,
      semantic_chunking Samples.numbered Samples.four_lines 1000 Samples.fresh
      = (w', Returns cs)
      /\ (length cs
          <= length (filter (fun item => (20 <= trimmed_len item)%Z)
                       Samples.four_lines))%nat
      /\ (cs = []
          <-> filter (fun item => 20 <= trimmed_len item) Samples.four_lines
              = []).
Proof.
  assert (H : Forall well_formed Samples.four_lines).
  { refine (bool_decide_unpack _ _). vm_compute. exact I. }
  split; [exact H|].
  exact (chunk_count_bounds Samples.numbered Samples.four_lines 1000
           Samples.fresh H).
Defined.

Lemma group_step_fragment (target_chars : Z) (g : grouping) (item : record) :
  ~ kept item -> group_step target_chars g item = g.
Proof.
  unfold kept, group_step. intros H.
  by replace (trimmed_len item <? 20) with true
    by (symmetry; apply Z.ltb_lt; lia).
Qed.

Lemma foldl_group_step_filter (target_chars : Z) (raw_chunks : list record)
    (g : grouping) :
  foldl (group_step target_chars) g (filter kept raw_chunks)
  = foldl (group_step target_chars) g raw_chunks.
Proof.
  revert g. induction raw_chunks as [|item raw IH]; intros g; [done|].
  rewrite filter_cons. destruct (decide (kept item)) as [Hk | Hk]; simpl.
  - apply IH.
  - rewrite (group_step_fragment _ _ _ Hk). apply IH.
Qed.

(** X7: fragments have no influence on the result. Chunking the input
    with its fragments taken out returns the very same chunks, ids
    included. *)
Theorem fragments_do_not_matter (uuid : nat -> pystr)
    (raw_chunks : list record) (target_chars : Z) (w : world) :
  Forall well_formed raw_chunks ->
  exists cs,
    snd (semantic_chunking uuid raw_chunks target_chars w) = Returns cs
    /\ snd (semantic_chunking uuid
              (filter (fun item => 20 <= trimmed_len item) raw_chunks)
              target_chars w) = Returns cs.
Proof.
  intros Hwf.
  change (filter (fun item => 20 <= trimmed_len item) raw_chunks)
    with (filter kept raw_chunks).
  assert (Hwf' : Forall well_formed (filter kept raw_chunks)).
  { apply Forall_forall. intros item Hin.
    apply list_elem_of_filter in Hin as [_ Hin].
    rewrite Forall_forall in Hwf. by apply Hwf. }
  destruct (semantic_chunking_run uuid raw_chunks target_chars w Hwf)
    as (cs & Hrun & Hmade & Hids).
  destruct (semantic_chunking_run uuid _ target_chars w Hwf')
    as (cs' & Hrun' & Hmade' & Hids').
  assert (Hsame : constituents (filter kept raw_chunks) target_chars
                  = constituents raw_chunks target_chars).
  { unfold constituents. by rewrite foldl_group_step_filter. }
  rewrite Hsame in Hmade'.
  assert (cs' = cs) as -> by (by eapply made_of_ids_unique).
  exists cs. by rewrite Hrun, Hrun'.
Qed.

Lemma fragments_do_not_matter_witness :
  Forall well_formed Samples.four_lines
  /\ exists cs,
      snd (semantic_chunking Samples.numbered Samples.four_lines 1000
             Samples.fresh) = Returns cs
      /\ snd (semantic_chunking Samples.numbered
                (filter (fun item => 20 <= trimmed_len item)
                   Samples.four_lines)
                1000 Samples.fresh) = Returns cs.
Proof.
  assert (H : Forall well_formed Samples.four_lines).
  { refine (bool_decide_unpack _ _). vm_compute. exact I. }
  split; [exact H|].
  exact (fragments_do_not_matter Samples.numbered Samples.four_lines 1000
           Samples.fresh H).
Defined.

Lemma closed_prefix_step (target_chars : Z) (g : grouping) (item : record) :
  closed g `prefix_of` closed (group_step target_chars g item).
Proof.
  unfold group_step. destruct (trimmed_len item <? 20); [done|].
  destruct (_ && _); simpl; [|done]. by apply prefix_app_r.
Qed.

Lemma closed_prefix_foldl (target_chars : Z) (more : list record)
    (g : grouping) :
  closed g `prefix_of` closed (foldl (group_step target_chars) g more).
Proof.
  revert g. induction more as [|item more IH]; intros g; [done|].
  simpl. etrans; [apply closed_prefix_step | apply IH].
Qed.

Lemma closed_prefix_finish (g : grouping) : closed g `prefix_of` finish g.
Proof.
  unfold finish. destruct (negb _); [|done]. by apply prefix_app_r.
Qed.

Lemma constituents_but_last (raw_chunks : list record) (target_chars : Z) :
  take (length (constituents raw_chunks target_chars) - 1)
    (constituents raw_chunks target_chars)
  = closed (foldl (group_step target_chars)
              {| closed := []; open := []; open_length := 0 |} raw_chunks).
Proof.
  pose proof (open_empty_closed_empty target_chars raw_chunks) as Hempty.
  unfold constituents, finish.
  destruct (bool_decide (open _ = [])) eqn:Hopen; simpl.
  - apply bool_decide_eq_true in Hopen. by rewrite (Hempty Hopen).
  - rewrite length_app. simpl.
    replace (length (closed _) + 1 - 1)%nat with (length (closed
      (foldl (group_step target_chars)
         {| closed := []; open := []; open_length := 0 |} raw_chunks)))
      by lia.
    apply take_app_length.
Qed.

(** X8: chunks once closed are final. Appending records to the input
    changes none of the chunks but the last: all chunks of the shorter run
    except its last are the chunks the longer run begins with, ids
    included. *)
Theorem appending_keeps_closed_chunks (uuid : nat -> pystr)
    (raw_chunks more : list record) (target_chars : Z) (w : world) :
  Forall well_formed raw_chunks -> Forall well_formed more ->
  exists cs cs',
    snd (semantic_chunking uuid raw_chunks target_chars w) = Returns cs
    /\ snd (semantic_chunking uuid (raw_chunks ++ more) target_chars w)
       = Returns cs'
    /\ take (length cs - 1) cs = take (length cs - 1) cs'.
Proof.
  intros Hwf Hmore.
  assert (Hboth : Forall well_formed (raw_chunks ++ more)).
  { by apply Forall_app. }
  destruct (semantic_chunking_run uuid raw_chunks target_chars w Hwf)
    as (cs & Hrun & Hmade & Hids).
  destruct (semantic_chunking_run uuid _ target_chars w Hboth)
    as (cs' & Hrun' & Hmade' & Hids').
  exists cs, cs'. rewrite Hrun, Hrun'. split; [done|]. split; [done|].
  pose proof (Forall2_length _ _ _ Hmade) as Hlen.
  set (k := (length cs - 1)%nat).
  assert (Hprefix : take k (constituents (raw_chunks ++ more) target_chars)
                    = take k (constituents raw_chunks target_chars)).
  { subst k. rewrite Hlen, constituents_but_last.
    change (constituents (raw_chunks ++ more) target_chars)
      with (finish (foldl (group_step target_chars)
                      {| closed := []; open := []; open_length := 0 |}
                      (raw_chunks ++ more))).
    rewrite foldl_app.
    set (g := foldl _ _ raw_chunks).
    assert (Hp : closed g
                 `prefix_of` finish (foldl (group_step target_chars) g more)).
    { etrans; [apply closed_prefix_foldl | apply closed_prefix_finish]. }
    destruct Hp as [tail ->].
    replace (length (constituents raw_chunks target_chars) - 1)%nat
      with (length (closed g)).
    - apply take_app_length.
    - subst g. rewrite <- (constituents_but_last raw_chunks target_chars).
      rewrite length_take. lia. }
  apply (made_of_ids_unique uuid (uuid_draws w) _ _
           (take k (constituents raw_chunks target_chars))).
  - by apply Forall2_take.
  - rewrite <- Hprefix. by apply Forall2_take.
  - intros i c Hi. apply lookup_take_Some in Hi as [Hi _]. by apply Hids.
  - intros i c Hi. apply lookup_take_Some in Hi as [Hi _]. by apply Hids'.
Qed.

Lemma appending_keeps_closed_chunks_witness :
  Forall well_formed Samples.two_lines
  /\ Forall well_formed [Samples.line_970]
  /\ exists cs cs',
      snd (semantic_chunking Samples.numbered Samples.two_lines 50
             Samples.fresh) = Returns cs
      /\ snd (semantic_chunking Samples.numbered
                (Samples.two_lines ++ [Samples.line_970]) 50 Samples.fresh)
         = Returns cs'
      /\ take (length cs - 1) cs = take (length cs - 1) cs'.
Proof.
  assert (H1 : Forall well_formed Samples.two_lines).
  { refine (bool_decide_unpack _ _). vm_compute. exact I. }
  assert (H2 : Forall well_formed [Samples.line_970]).
  { refine (bool_decide_unpack _ _). vm_compute. exact I. }
  split; [exact H1|]. split; [exact H2|].
  exact (appending_keeps_closed_chunks Samples.numbered Samples.two_lines
           [Samples.line_970] 50 Samples.fresh H1 H2).
Defined.

Lemma for_each_app {S A} (body : S -> A -> M S) (l1 l2 : list A) (st : S)
    (w : world) :
  for_each body (l1 ++ l2) st w
  = (for_each body l1 st ≫= for_each body l2) w.
Proof.
  revert st w. induction l1 as [|x l1 IH]; intros st w; [reflexivity|].
  simpl. unfold mbind, M_bind.
  destruct (body st x w) as [w1 [st1|e]]; [|reflexivity].
  rewrite IH. reflexivity.
Qed.

(** A record on which the loop body raises stops the run, whatever comes
    after it. *)
Lemma semantic_chunking_raises (uuid : nat -> pystr)
    (good rest : list record) (bad : record) (target_chars : Z) (w : world)
    (e : Exception) :
  Forall well_formed good ->
  (forall st w', loop_body uuid target_chars st bad w' = (w', Raises e)) ->
  snd (semantic_chunking uuid (good ++ bad :: rest) target_chars w)
  = Raises e.
Proof.
  intros Hgood Hbad. unfold semantic_chunking.
  erewrite bind_returns by reflexivity.
  set (w1 := {| stdout := _ |}).
  set (g0 := {| closed := []; open := []; open_length := 0 |}).
  set (st0 := {| chunks := []; current_chunk := []; current_length := 0 |}).
  assert (Htr0 : tracks uuid w1 st0 g0 w1).
  { repeat split; simpl; try done.
    unfold drawn. simpl. by rewrite Nat.add_0_r. }
  destruct (loop_tracks uuid target_chars w1 good Hgood st0 g0 w1
              (Forall_nil_2 _) Htr0) as (st & w2 & Hrun & _).
  erewrite bind_raises; [reflexivity|].
  rewrite for_each_app. erewrite bind_returns by exact Hrun.
  simpl. erewrite bind_raises by apply Hbad. reflexivity.
Qed.

(** X9: a record without the key "content" stops the run with
    [KeyError('content')], wherever it stands after well-formed records
    and whatever follows it; no chunk is returned. *)
Theorem record_without_content_raises (uuid : nat -> pystr)
    (good rest : list record) (bad : record) (target_chars : Z) (w : world) :
  Forall well_formed good ->
  bad !! u "content" = None ->
  snd (semantic_chunking uuid (good ++ bad :: rest) target_chars w)
  = Raises (KeyError (u "content")).
Proof.
  intros Hgood Hbad. apply semantic_chunking_raises; [exact Hgood|].
  intros st w'. unfold loop_body.
  erewrite bind_raises; [reflexivity|].
  unfold getitem. by rewrite Hbad.
Qed.

Lemma record_without_content_raises_witness :
  Forall well_formed Samples.two_lines
  /\ (∅ : record) !! u "content" = None
  /\ snd (semantic_chunking Samples.numbered
            (Samples.two_lines ++ ∅ :: [Samples.line_970]) 50 Samples.fresh)
     = Raises (KeyError (u "content")).
Proof.
  assert (H1 : Forall well_formed Samples.two_lines).
  { refine (bool_decide_unpack _ _). vm_compute. exact I. }
  assert (H2 : (∅ : record) !! u "content" = None) by reflexivity.
  split; [exact H1|]. split; [exact H2|].
  exact (record_without_content_raises Samples.numbered Samples.two_lines
           [Samples.line_970] ∅ 50 Samples.fresh H1 H2).
Defined.

(** X10: a record whose content is not a string (a number, [None], a
    list) stops the run with [AttributeError]: the value has no [strip]. *)
Theorem record_with_non_str_content_raises (uuid : nat -> pystr)
    (good rest : list record) (bad : record) (v : value)
    (target_chars : Z) (w : world) :
  Forall well_formed good ->
  bad !! u "content" = Some v ->
  (forall s, v <> VStr s) ->
  snd (semantic_chunking uuid (good ++ bad :: rest) target_chars w)
  = Raises (AttributeError v (u "strip")).
Proof.
  intros Hgood Hbad Hv. apply semantic_chunking_raises; [exact Hgood|].
  intros st w'. unfold loop_body.
  erewrite bind_returns by (unfold getitem; rewrite Hbad; reflexivity).
  erewrite bind_raises; [reflexivity|].
  destruct v; try reflexivity. by destruct (Hv s).
Qed.

Lemma record_with_non_str_content_raises_witness :
  Forall well_formed Samples.two_lines
  /\ MoreSamples.null_content !! u "content" = Some VNone
  /\ (forall s, VNone <> VStr s)
  /\ snd (semantic_chunking Samples.numbered
            (Samples.two_lines ++ MoreSamples.null_content :: []) 50
            Samples.fresh)
     = Raises (AttributeError VNone (u "strip")).
Proof.
  assert (H1 : Forall well_formed Samples.two_lines).
  { refine (bool_decide_unpack _ _). vm_compute. exact I. }
  assert (H2 : MoreSamples.null_content !! u "content" = Some VNone)
    by reflexivity.
  assert (H3 : forall s, VNone <> VStr s) by discriminate.
  split; [exact H1|]. split; [exact H2|]. split; [exact H3|].
  exact (record_with_non_str_content_raises Samples.numbered
           Samples.two_lines [] MoreSamples.null_content VNone 50
           Samples.fresh H1 H2 H3).
Defined.

(* ===================================================================== *)
(** ** The normalizer: further properties *)
(* ===================================================================== *)

Lemma foldl_append_concat {A B} (f : A -> list B) (ps : list A)
    (acc : list B) :
  foldl (fun content p => content ++ f p) acc ps = acc ++ concat (f <$> ps).
Proof.
  revert acc. induction ps as [|p ps IH]; intros acc; simpl.
  - by rewrite app_nil_r.
  - rewrite IH. by rewrite app_assoc.
Qed.

Lemma normalize_concat (result : AnalyzeResult) :
  normalize result = concat (page_records <$> items (pages result)).
Proof. unfold normalize. by rewrite foldl_append_concat. Qed.

(** The types of the records of one page, in order. *)
Lemma page_record_types (page : DocumentPage) :
  type_of <$> page_records page
  = (if present (paragraphs page)
     then replicate (length (items (paragraphs page)))
            (Some (VStr (u "paragraph")))
     else if present (lines page)
     then replicate (length (items (lines page))) (Some (VStr (u "line")))
     else [])
    ++ (if present (tables page)
        then replicate (length (items (tables page)))
               (Some (VStr (u "table")))
        else if present (words page)
        then [Some (VStr (u "page_text"))]
        else []).
Proof.
  unfold page_records. rewrite fmap_app. f_equal.
  - destruct (present (paragraphs page)); [|destruct (present (lines page))];
      [| |reflexivity]; rewrite <- list_fmap_compose;
      apply const_fmap; intros x; reflexivity.
  - destruct (present (tables page)); [|destruct (present (words page))];
      [| |reflexivity].
    + rewrite <- list_fmap_compose. apply const_fmap; intros x; reflexivity.
    + reflexivity.
Qed.

Lemma present_items {A} (xs : option (list A)) :
  present xs = true -> items xs <> [].
Proof. by destruct xs as [[|x l]|]. Qed.

(** X11: per page the two fallbacks exclude what they fall back from. A
    page never yields paragraph records and line records together, nor
    table records and a page_text record together, and it yields at most
    one page_text record. *)
Theorem page_fallbacks_are_exclusive (page : DocumentPage) :
  ~ (Some (VStr (u "paragraph")) ∈ type_of <$> page_records page
     /\ Some (VStr (u "line")) ∈ type_of <$> page_records page)
  /\ ~ (Some (VStr (u "table")) ∈ type_of <$> page_records page
        /\ Some (VStr (u "page_text")) ∈ type_of <$> page_records page)
  /\ (forall i j : nat,
        (type_of <$> page_records page) !! i
        = Some (Some (VStr (u "page_text"))) ->
        (type_of <$> page_records page) !! j
        = Some (Some (VStr (u "page_text"))) ->
        i = j).
Proof.
  rewrite page_record_types.
  assert (Hrep : forall n (a b : option value),
            a <> b -> a ∈ replicate n b -> False).
  { intros n a b Hne Hin. apply elem_of_replicate in Hin as [? _]. done. }
  assert (Hlook : forall n i (a b : option value),
            a <> b -> replicate n b !! i = Some a -> False).
  { intros n i a b Hne Hin. apply lookup_replicate in Hin as [? _]. done. }
  split; [|split].
  - intros [H1 H2]. apply elem_of_app in H1, H2.
    destruct (present (paragraphs page)); [|destruct (present (lines page))];
      destruct (present (tables page)); try destruct (present (words page));
      destruct H1 as [H1|H1], H2 as [H2|H2];
      try (by apply elem_of_nil in H1); try (by apply elem_of_nil in H2);
      try (by eapply Hrep in H1); try (by eapply Hrep in H2);
      try (apply list_elem_of_singleton in H1; discriminate H1);
      try (apply list_elem_of_singleton in H2; discriminate H2).
  - intros [H1 H2]. apply elem_of_app in H1, H2.
    destruct (present (paragraphs page)); [|destruct (present (lines page))];
      destruct (present (tables page)); try destruct (present (words page));
      destruct H1 as [H1|H1], H2 as [H2|H2];
      try (by apply elem_of_nil in H1); try (by apply elem_of_nil in H2);
      try (by eapply Hrep in H1); try (by eapply Hrep in H2);
      try (apply list_elem_of_singleton in H1; discriminate H1);
      try (apply list_elem_of_singleton in H2; discriminate H2).
  - intros i j Hi Hj.
    apply lookup_app_Some in Hi as [Hi | [Hi1 Hi]];
      apply lookup_app_Some in Hj as [Hj | [Hj1 Hj]];
      destruct (present (paragraphs page)); try destruct (present (lines page));
      destruct (present (tables page)); try destruct (present (words page));
      try discriminate;
      try (by eapply Hlook in Hi); try (by eapply Hlook in Hj).
    all: apply list_lookup_singleton_Some in Hi as [Hi _];
      apply list_lookup_singleton_Some in Hj as [Hj _]; lia.
Qed.

Lemma page_records_contract (page : DocumentPage) :
  Forall (content_record_of page) (page_records page).
Proof.
  unfold page_records, content_record_of, record_types.
  apply Forall_app. split.
  - destruct (present (paragraphs page)); [|destruct (present (lines page))];
      [| |constructor]; apply Forall_fmap, Forall_true; intros x;
      (split; [eexists; reflexivity|]);
      (split; [|reflexivity]); eexists; (split; [reflexivity|]).
    + by left.
    + by right; left.
  - destruct (present (tables page)); [|destruct (present (words page))];
      [| |constructor].
    + apply Forall_fmap, Forall_true; intros x.
      split; [eexists; reflexivity|]. split; [|reflexivity].
      eexists. split; [reflexivity|]. by right; right; left.
    + apply Forall_singleton.
      split; [eexists; reflexivity|]. split; [|reflexivity].
      eexists. split; [reflexivity|]. by right; right; right; left.
Qed.

Lemma normalize_well_formed (result : AnalyzeResult) :
  Forall well_formed (normalize result).
Proof.
  rewrite normalize_concat. apply Forall_forall. intros item Hin.
  apply elem_of_concat_inv in Hin as (l & Hl & Hitem).
  apply list_elem_of_fmap in Hl as (page & -> & _).
  pose proof (page_records_contract page) as Hc.
  rewrite Forall_forall in Hc.
  destruct (Hc item Hitem) as (Htext & (t & Ht & _) & Hp).
  unfold well_formed. rewrite Hp, Ht. eauto.
Qed.

(** A page whose number holds [None] gives records whose page is [None]:
    the string of line 29 is for a page without the attribute only. *)
Example page_number_none_is_kept :
  (fun item => (text_of item, item !! u "page"))
  <$> page_records MoreSamples.unnumbered_page
  = [ (Some (u "Access control policy"), Some VNone) ].
Proof. vm_compute. reflexivity. Qed.

(** A cell whose content holds [None] is written with the word None; a
    count the table holds is kept, one it does not have is 0. *)
Example cell_content_none_is_formatted :
  (fun item => (text_of item, item !! u "rows", item !! u "cols"))
  <$> page_records MoreSamples.table_page
  = [ (Some (u "R0C1: None"), Some (VInt 1), Some (VInt 0)) ].
Proof. vm_compute. reflexivity. Qed.

(** X12: the output contract of the normalizer. Every record it yields
    has a string content, one of the types paragraph, line, table and
    page_text, and the page value of one of the pages of the result: the
    number the page holds, [None] when it holds [None], "unknown" when it
    has no number attribute. So every record is one the chunker can
    read. *)
Theorem normalize_yields_content_records (result : AnalyzeResult) :
  Forall (fun item =>
            well_formed item
            /\ exists page, page ∈ items (pages result)
                            /\ content_record_of page item)
    (normalize result).
Proof.
  pose proof (normalize_well_formed result) as Hwf.
  rewrite Forall_forall in Hwf.
  rewrite normalize_concat in *. apply Forall_forall. intros item Hin.
  split; [by apply Hwf|].
  apply elem_of_concat_inv in Hin as (l & Hl & Hitem).
  apply list_elem_of_fmap in Hl as (page & -> & Hpage).
  pose proof (page_records_contract page) as Hc.
  rewrite Forall_forall in Hc. exists page. split; [exact Hpage|].
  by apply Hc.
Qed.

(** X13: a page yields no record at all exactly when it has no
    paragraphs, no lines, no tables and no words. *)
Theorem page_yields_nothing_iff (page : DocumentPage) :
  page_records page = []
  <-> present (paragraphs page) = false /\ present (lines page) = false
      /\ present (tables page) = false /\ present (words page) = false.
Proof.
  unfold page_records. split.
  - intros H. apply app_eq_nil in H as [H1 H2].
    destruct (present (paragraphs page)) eqn:Hp.
    { apply fmap_nil_inv in H1. by apply present_items in Hp. }
    destruct (present (lines page)) eqn:Hl.
    { apply fmap_nil_inv in H1. by apply present_items in Hl. }
    destruct (present (tables page)) eqn:Ht.
    { apply fmap_nil_inv in H2. by apply present_items in Ht. }
    destruct (present (words page)) eqn:Hw; [discriminate|done].
  - intros (-> & -> & -> & ->). reflexivity.
Qed.

(** X14: pages are normalized one by one, in order: the records of a
    result are the records of its first pages followed by the records of
    the pages after them. *)
Theorem normalize_page_by_page (first_pages more_pages : list DocumentPage) :
  normalize {| pages := Some (first_pages ++ more_pages) |}
  = normalize {| pages := Some first_pages |}
    ++ normalize {| pages := Some more_pages |}.
Proof.
  rewrite !normalize_concat. simpl. by rewrite fmap_app, concat_app.
Qed.

(* ===================================================================== *)
(** ** ingest_file: further properties *)
(* ===================================================================== *)

(** What a run of [ingest_file] that meets no exception leaves. *)
Lemma ingest_file_returns
    (upload_blob : pystr -> pystr -> option Exception)
    (begin_analyze_document : pystr -> outcome AnalyzeResult)
    (local_path : pystr) (w : world) (result : AnalyzeResult) :
  upload_blob (basename local_path) local_path = None ->
  begin_analyze_document local_path = Returns result ->
  exists out,
    ingest_file upload_blob begin_analyze_document local_path w
    = ({| stdout := stdout w ++ out;
          uuid_draws := uuid_draws w;
          files := <[output_path_of (basename local_path)
                     := VList (VDict <$> take 500 (normalize result))]>
                     (files w) |},
       Returns (normalize result)).
Proof.
  intros Hupload Hanalyze. unfold ingest_file. rewrite Hupload.
  erewrite bind_returns by reflexivity.
  erewrite bind_returns by reflexivity.
  erewrite bind_returns by reflexivity.
  erewrite bind_returns; last first.
  { unfold analyze_document.
    erewrite bind_returns by reflexivity.
    erewrite bind_returns by (rewrite Hanalyze; reflexivity).
    erewrite bind_returns by reflexivity.
    reflexivity. }
  erewrite bind_returns by reflexivity.
  erewrite bind_returns by reflexivity.
  cbn [stdout uuid_draws files].
  lazymatch goal with
  | |- context [mbind _ (for_each preview ?l tt) ?w1] =>
      destruct (preview_returns l w1) as (out & Hpreview)
  end.
  { apply Forall_take, normalize_printable. }
  erewrite bind_returns by exact Hpreview.
  erewrite bind_returns by reflexivity.
  cbn [stdout uuid_draws files].
  eexists. unfold mret, M_ret. f_equal. f_equal.
  rewrite <- !app_assoc. reflexivity.
Qed.

(** X15: when the upload or the analysis raises, [ingest_file] raises the
    same exception and writes no file. *)
Theorem ingest_file_failure_writes_nothing
    (upload_blob : pystr -> pystr -> option Exception)
    (begin_analyze_document : pystr -> outcome AnalyzeResult)
    (local_path : pystr) (w : world) (e : Exception) :
  upload_blob (basename local_path) local_path = Some e
  \/ (upload_blob (basename local_path) local_path = None
      /\ begin_analyze_document local_path = Raises e) ->
  exists w',
    ingest_file upload_blob begin_analyze_document local_path w
    = (w', Raises e)
    /\ files w' = files w.
Proof.
  intros [Hupload | [Hupload Hanalyze]]; unfold ingest_file; rewrite Hupload.
  - erewrite bind_returns by reflexivity.
    erewrite bind_raises by reflexivity.
    eexists. split; reflexivity.
  - erewrite bind_returns by reflexivity.
    erewrite bind_returns by reflexivity.
    erewrite bind_returns by reflexivity.
    erewrite bind_raises; last first.
    { unfold analyze_document.
      erewrite bind_returns by reflexivity.
      erewrite bind_raises by (rewrite Hanalyze; reflexivity).
      reflexivity. }
    eexists. split; reflexivity.
Qed.

Lemma ingest_file_failure_writes_nothing_witness :
  (MoreSamples.refused (basename (u "./docs/support.pdf"))
     (u "./docs/support.pdf") = Some Samples.quota_exceeded
   \/ (MoreSamples.refused (basename (u "./docs/support.pdf"))
         (u "./docs/support.pdf") = None
       /\ Samples.one_page (u "./docs/support.pdf")
          = Raises Samples.quota_exceeded))
  /\ exists w',
      ingest_file MoreSamples.refused Samples.one_page
        (u "./docs/support.pdf") Samples.fresh
      = (w', Raises Samples.quota_exceeded)
      /\ files w' = files Samples.fresh.
Proof.
  assert (H : MoreSamples.refused (basename (u "./docs/support.pdf"))
                (u "./docs/support.pdf") = Some Samples.quota_exceeded
              \/ (MoreSamples.refused (basename (u "./docs/support.pdf"))
                    (u "./docs/support.pdf") = None
                  /\ Samples.one_page (u "./docs/support.pdf")
                     = Raises Samples.quota_exceeded)).
  { left. reflexivity. }
  split; [exact H|].
  exact (ingest_file_failure_writes_nothing MoreSamples.refused
           Samples.one_page (u "./docs/support.pdf") Samples.fresh
           Samples.quota_exceeded H).
Defined.

(** X16: ingesting the same file again changes no file: the second run
    overwrites the output with the same array. *)
Theorem ingest_file_again_same_files
    (upload_blob : pystr -> pystr -> option Exception)
    (begin_analyze_document : pystr -> outcome AnalyzeResult)
    (local_path : pystr) (w : world) (result : AnalyzeResult) :
  upload_blob (basename local_path) local_path = None ->
  begin_analyze_document local_path = Returns result ->
  exists w1 w2,
    ingest_file upload_blob begin_analyze_document local_path w
    = (w1, Returns (normalize result))
    /\ ingest_file upload_blob begin_analyze_document local_path w1
       = (w2, Returns (normalize result))
    /\ files w2 = files w1.
Proof.
  intros Hupload Hanalyze.
  destruct (ingest_file_returns upload_blob begin_analyze_document
              local_path w result Hupload Hanalyze) as (out & Hrun).
  set (w1 := {| stdout := stdout w ++ out |}) in Hrun.
  destruct (ingest_file_returns upload_blob begin_analyze_document
              local_path w1 result Hupload Hanalyze) as (out' & Hrun').
  eexists w1, _. split; [exact Hrun|]. split; [exact Hrun'|].
  simpl. apply insert_insert_eq.
Qed.

Lemma ingest_file_again_same_files_witness :
  Samples.uploaded (basename (u "./docs/support.pdf")) (u "./docs/support.pdf")
  = None
  /\ Samples.one_page (u "./docs/support.pdf")
     = Returns {| pages := Some [Samples.scanned_page] |}
  /\ exists w1 w2,
      ingest_file Samples.uploaded Samples.one_page (u "./docs/support.pdf")
        Samples.fresh
      = (w1, Returns (normalize {| pages := Some [Samples.scanned_page] |}))
      /\ ingest_file Samples.uploaded Samples.one_page
           (u "./docs/support.pdf") w1
         = (w2, Returns (normalize {| pages := Some [Samples.scanned_page] |}))
      /\ files w2 = files w1.
Proof.
  split; [reflexivity|]. split; [reflexivity|].
  exact (ingest_file_again_same_files Samples.uploaded Samples.one_page
           (u "./docs/support.pdf") Samples.fresh
           {| pages := Some [Samples.scanned_page] |} eq_refl eq_refl).
Defined.

(* ===================================================================== *)
(** ** Paths *)
(* ===================================================================== *)

Lemma basename_fold_no_slash (name tail : pystr) :
  Forall (fun c => c <> 47%N) name ->
  foldl (fun tail c => if (c =? 47)%N then [] else tail ++ [c]) tail name
  = tail ++ name.
Proof.
  intros H. revert tail. induction H as [|c name Hc _ IH]; intros tail; simpl.
  - by rewrite app_nil_r.
  - apply N.eqb_neq in Hc. rewrite Hc, IH. by rewrite <- app_assoc.
Qed.

Lemma basename_join (dir name : pystr) :
  Forall (fun c => c <> 47%N) name ->
  basename (dir ++ u "/" ++ name) = name.
Proof.
  intros Hname. unfold basename.
  rewrite !foldl_app. simpl. by rewrite basename_fold_no_slash.
Qed.

Lemma replace_pdf_suffix (stem : pystr) :
  Forall (fun c => c <> 46%N) stem ->
  replace (u ".pdf") [] (stem ++ u ".pdf") = stem.
Proof.
  unfold replace. induction 1 as [|c stem Hc _ IH].
  - vm_compute. reflexivity.
  - change ((c :: stem) ++ u ".pdf") with (c :: (stem ++ u ".pdf")).
    cbn [replace_from]. rewrite bool_decide_eq_false_2.
    + by rewrite IH.
    + change (u ".pdf") with [46%N; 112%N; 100%N; 102%N].
      cbn [length take]. intros Heq. injection Heq as Heq _. done.
Qed.

(** X17: for a path of the form directory/stem.pdf, where the stem holds
    neither a slash nor a dot, [ingest_file] writes its output to
    ./output/stem.json. *)
Theorem output_path_of_pdf (dir stem : pystr) :
  Forall (fun c => c <> 47%N /\ c <> 46%N) stem ->
  output_path_of (basename (dir ++ u "/" ++ stem ++ u ".pdf"))
  = u "./output/" ++ stem ++ u ".json".
Proof.
  intros Hstem.
  assert (Hname : Forall (fun c => c <> 47%N) (stem ++ u ".pdf")).
  { apply Forall_app. split.
    - eapply Forall_impl; [exact Hstem|]. by intros c [? _].
    - refine (bool_decide_unpack _ _). vm_compute. exact I. }
  rewrite (basename_join dir (stem ++ u ".pdf") Hname).
  unfold output_path_of. rewrite replace_pdf_suffix; [reflexivity|].
  eapply Forall_impl; [exact Hstem|]. by intros c [_ ?].
Qed.

Lemma output_path_of_pdf_witness :
  Forall (fun c => c <> 47%N /\ c <> 46%N) (u "nist-sp800-53")
  /\ output_path_of (basename (u "./docs" ++ u "/" ++ u "nist-sp800-53"
                               ++ u ".pdf"))
     = u "./output/" ++ u "nist-sp800-53" ++ u ".json".
Proof.
  assert (H : Forall (fun c => c <> 47%N /\ c <> 46%N) (u "nist-sp800-53")).
  { refine (bool_decide_unpack _ _). vm_compute. exact I. }
  split; [exact H|].
  exact (output_path_of_pdf (u "./docs") (u "nist-sp800-53") H).
Defined.

(* ===================================================================== *)
(** ** index_chunks and the two scripts *)
(* ===================================================================== *)

Import Pipeline.

Lemma sum_ones {A} (l : list A) :
  sum ((fun _ => 1) <$> l) = Z.of_nat (length l).
Proof.
  unfold sum.
  assert (H : forall acc, foldl Z.add acc ((fun _ : A => 1) <$> l)
                          = acc + Z.of_nat (length l)).
  { induction l as [|x l IH]; intros acc; simpl; [lia|].
    rewrite IH. lia. }
  rewrite H. lia.
Qed.

Lemma filter_all_iff {A} (P : A -> Prop) `{!forall x, Decision (P x)}
    (l : list A) :
  length (filter P l) = length l <-> Forall P l.
Proof.
  induction l as [|x l IH]; [by split; [constructor|]|].
  rewrite filter_cons. pose proof (length_filter P l) as Hle.
  destruct (decide (P x)) as [Hx | Hx]; simpl; split.
  - intros Hall. constructor; [done|]. apply IH. lia.
  - intros Hall. apply Forall_cons in Hall as [_ Hall].
    apply IH in Hall. lia.
  - intros Hall. lia.
  - intros Hall. by apply Forall_cons in Hall as [? _].
Qed.

Lemma new_search_client_run
    (search_endpoint search_key : option pystr)
    (AzureKeyCredential : option pystr -> option Exception)
    (SearchClient : option pystr -> pystr -> option pystr
                    -> option Exception)
    (w : world) :
  new_search_client search_endpoint search_key AzureKeyCredential
    SearchClient w
  = (w, match AzureKeyCredential search_key with
        | Some e => Raises e
        | None =>
            match SearchClient search_endpoint (u "itpolicy-nist-index")
                    search_key with
            | Some e => Raises e
            | None => Returns tt
            end
        end).
Proof.
  unfold new_search_client, call.
  destruct (AzureKeyCredential search_key) as [e|]; [reflexivity|].
  erewrite bind_returns by reflexivity.
  destruct (SearchClient search_endpoint _ search_key); reflexivity.
Qed.

(** What [index_chunks] does when its client is built and the upload
    returns. *)
Lemma index_chunks_returns
    (search_endpoint search_key : option pystr)
    (AzureKeyCredential : option pystr -> option Exception)
    (SearchClient : option pystr -> pystr -> option pystr
                    -> option Exception)
    (upload_documents : list chunk -> outcome (list IndexingResult))
    (cs : list chunk) (result : list IndexingResult) (w : world) :
  AzureKeyCredential search_key = None ->
  SearchClient search_endpoint (u "itpolicy-nist-index") search_key = None ->
  upload_documents cs = Returns result ->
  exists out,
    index_chunks search_endpoint search_key AzureKeyCredential SearchClient
      upload_documents cs w
    = ({| stdout := stdout w ++ out; uuid_draws := uuid_draws w;
          files := files w |},
       Returns (Z.of_nat (successes result) =? Z.of_nat (length cs))).
Proof.
  intros Hkey Hclient Hupload. unfold index_chunks.
  erewrite bind_returns
    by (rewrite new_search_client_run, Hkey, Hclient; reflexivity).
  erewrite bind_returns by reflexivity.
  erewrite bind_returns by (rewrite Hupload; reflexivity).
  rewrite sum_ones. fold (successes result).
  erewrite bind_returns by reflexivity.
  erewrite bind_returns by reflexivity.
  destruct (Z.of_nat (length cs) - Z.of_nat (successes result) >? 0).
  - erewrite bind_returns by reflexivity.
    eexists. unfold mret, M_ret. cbn [stdout uuid_draws files].
    f_equal. f_equal. rewrite <- !app_assoc. reflexivity.
  - erewrite bind_returns by reflexivity.
    eexists. unfold mret, M_ret. cbn [stdout uuid_draws files].
    f_equal. f_equal. rewrite <- !app_assoc. reflexivity.
Qed.

(** X18: when the search client is built and the service answers with one
    result per chunk, [index_chunks] returns [True] exactly when every
    result reports success; it writes no file. *)
Theorem index_chunks_true_iff_all_succeeded
    (search_endpoint search_key : option pystr)
    (AzureKeyCredential : option pystr -> option Exception)
    (SearchClient : option pystr -> pystr -> option pystr
                    -> option Exception)
    (upload_documents : list chunk -> outcome (list IndexingResult))
    (cs : list chunk) (result : list IndexingResult) (w : world) :
  AzureKeyCredential search_key = None ->
  SearchClient search_endpoint (u "itpolicy-nist-index") search_key = None ->
  upload_documents cs = Returns result ->
  length result = length cs ->
  exists w' b,
    index_chunks search_endpoint search_key AzureKeyCredential SearchClient
      upload_documents cs w = (w', Returns b)
    /\ files w' = files w
    /\ (b = true <-> Forall (fun r => succeeded r = true) result).
Proof.
  intros Hkey Hclient Hupload Hlen.
  destruct (index_chunks_returns search_endpoint search_key
              AzureKeyCredential SearchClient upload_documents cs result w
              Hkey Hclient Hupload) as (out & Hrun).
  eexists _, _. split; [exact Hrun|]. split; [reflexivity|].
  rewrite Z.eqb_eq, <- Hlen, Nat2Z.inj_iff. unfold successes.
  apply filter_all_iff.
Qed.

Lemma index_chunks_true_iff_all_succeeded_witness :
  Samples.key_must_be_str Samples.workshop_key = None
  /\ MoreSamples.search_client_built Samples.workshop_endpoint
       (u "itpolicy-nist-index") Samples.workshop_key = None
  /\ MoreSamples.one_failed MoreSamples.two_chunks
     = Returns [ {| result_key := u "id-0"; succeeded := true |};
                 {| result_key := u "id-1"; succeeded := false |} ]
  /\ length [ {| result_key := u "id-0"; succeeded := true |};
              {| result_key := u "id-1"; succeeded := false |} ]
     = length MoreSamples.two_chunks
  /\ exists w' b,
      index_chunks Samples.workshop_endpoint Samples.workshop_key
        Samples.key_must_be_str MoreSamples.search_client_built
        MoreSamples.one_failed MoreSamples.two_chunks Samples.fresh
      = (w', Returns b)
      /\ files w' = files Samples.fresh
      /\ (b = true
          <-> Forall (fun r => succeeded r = true)
                [ {| result_key := u "id-0"; succeeded := true |};
                  {| result_key := u "id-1"; succeeded := false |} ]).
Proof.
  split; [reflexivity|]. split; [reflexivity|].
  split; [reflexivity|]. split; [reflexivity|].
  exact (index_chunks_true_iff_all_succeeded Samples.workshop_endpoint
           Samples.workshop_key Samples.key_must_be_str
           MoreSamples.search_client_built MoreSamples.one_failed
           MoreSamples.two_chunks _ Samples.fresh eq_refl eq_refl eq_refl
           eq_refl).
Defined.

Lemma test_openai_embedding_run
    (embeddings_create : pystr -> list pystr -> option Exception) (w : world) :
  exists line,
    test_openai_embedding embeddings_create w
    = ({| stdout := stdout w ++ [line]; uuid_draws := uuid_draws w;
          files := files w |},
       Returns (bool_decide (embeddings_create (u "text-embedding-3-small")
                               [u "test policy document"] = None))).
Proof.
  unfold test_openai_embedding, try_except.
  destruct (embeddings_create _ _) as [e|]; eexists; reflexivity.
Qed.

Lemma json_load_returns (path : pystr) (v : value) (records : list record)
    (w : world) :
  files w !! path = Some v -> as_records v = Some records ->
  json_load path w = (w, Returns records).
Proof. intros Hfile Hrec. unfold json_load. by rewrite Hfile, Hrec. Qed.

(** The script up to line 143: the embedding test passes, the index
    client is built, the chunks are made and written. *)
Lemma main_until_chunks_written
    (uuid : nat -> pystr)
    (search_endpoint search_key : option pystr)
    (AzureKeyCredential : option pystr -> option Exception)
    (SearchIndexClient : option pystr -> option pystr -> option Exception)
    (create_or_update_index : SearchIndex -> option Exception)
    (embeddings_create : pystr -> list pystr -> option Exception)
    (SearchClient : option pystr -> pystr -> option pystr
                    -> option Exception)
    (upload_documents : list chunk -> outcome (list IndexingResult))
    (w : world) (v : value) (raw_content : list record) :
  files w !! input_path = Some v ->
  as_records v = Some raw_content ->
  Forall well_formed raw_content ->
  embeddings_create (u "text-embedding-3-small") [u "test policy document"]
  = None ->
  AzureKeyCredential search_key = None ->
  SearchIndexClient search_endpoint search_key = None ->
  exists out cs,
    Forall2 made_of cs (constituents raw_content default_target_chars)
    /\ ids_from uuid (uuid_draws w) cs
    /\ chunk_and_index_main uuid search_endpoint search_key
      AzureKeyCredential SearchIndexClient create_or_update_index
      embeddings_create SearchClient upload_documents w
       = (c ← first cs;
          _ ← print ([0x1F4CB%N] ++ u " Sample: " ++ slice_to 150 (content c)
                     ++ u "...");
          success ← index_chunks search_endpoint search_key
                      AzureKeyCredential SearchClient upload_documents cs;
          _ ← (if (success : bool) then
                 _ ← print ([10%N; 0x1F389%N] ++ u " DAY 3 100% COMPLETE!");
                 _ ← print ([0x2705%N] ++ u " Portal: rag-ai-search-workshop "
                            ++ [0x2192%N] ++ u " Indexes " ++ [0x2192%N]
                            ++ u " itpolicy-nist-index");
                 _ ← print ([0x2705%N]
                            ++ u " Local: ./output/nist_chunks_indexed.json"
                            ++ u " (~50 chunks)");
                 print ([0x2705%N] ++ u " Ready for Day 4: RAG queries!")
               else
                 print ([10%N; 0x274C%N]
                        ++ u " Some indexing failed - check Azure Portal logs"));
          mret 0)
         {| stdout := stdout w ++ out;
            uuid_draws := (uuid_draws w + length cs)%nat;
            files := <[chunks_path := VList (chunk_json <$> cs)]> (files w) |}.
Proof.
  intros Hfile Hrec Hwf Hembed Hkey Hclient. unfold chunk_and_index_main.
  erewrite bind_returns by reflexivity.
  erewrite bind_returns by (apply (json_load_returns _ v); [exact Hfile|exact Hrec]).
  erewrite bind_returns by reflexivity.
  lazymatch goal with
  | |- context [mbind _ (test_openai_embedding _) ?w1] =>
      destruct (test_openai_embedding_run embeddings_create w1)
        as (line1 & Htest)
  end.
  rewrite Hembed in Htest.
  erewrite bind_returns by exact Htest.
  cbn [negb bool_decide decide_rel].
  rewrite bool_decide_eq_true_2 by reflexivity. cbn [negb].
  erewrite bind_returns
    by (apply create_simple_index_run; [exact Hkey|exact Hclient]).
  lazymatch goal with
  | |- context [mbind _ (semantic_chunking _ _ _) ?w1] =>
      destruct (semantic_chunking_run uuid raw_content default_target_chars
                  w1 Hwf) as (cs & Hchunk & Hmade & Hids)
  end.
  erewrite bind_returns by exact Hchunk.
  erewrite bind_returns by reflexivity.
  cbn [stdout uuid_draws files] in *.
  eexists _, cs. split; [exact Hmade|]. split; [exact Hids|].
  f_equal. f_equal. rewrite <- !app_assoc. reflexivity.
Qed.



(** X20: when the embedding test passes and the index client is built,
    and no record of the input passes the fragment filter (the empty
    array included), the script writes an empty chunks file and then
    raises [IndexError] at the sample print of line 145, before the
    upload is reached: whatever the search client and the upload would
    do. *)
Theorem main_raises_IndexError_without_chunks
    (uuid : nat -> pystr)
    (search_endpoint search_key : option pystr)
    (AzureKeyCredential : option pystr -> option Exception)
    (SearchIndexClient : option pystr -> option pystr -> option Exception)
    (create_or_update_index : SearchIndex -> option Exception)
    (embeddings_create : pystr -> list pystr -> option Exception)
    (SearchClient : option pystr -> pystr -> option pystr
                    -> option Exception)
    (upload_documents : list chunk -> outcome (list IndexingResult))
    (w : world) (v : value) (raw_content : list record) :
  files w !! input_path = Some v ->
  as_records v = Some raw_content ->
  Forall well_formed raw_content ->
  embeddings_create (u "text-embedding-3-small") [u "test policy document"]
  = None ->
  AzureKeyCredential search_key = None ->
  SearchIndexClient search_endpoint search_key = None ->
  filter (fun item => 20 <= trimmed_len item) raw_content = [] ->
  exists out,
    chunk_and_index_main uuid search_endpoint search_key
      AzureKeyCredential SearchIndexClient create_or_update_index
      embeddings_create SearchClient upload_documents w
    = ({| stdout := stdout w ++ out; uuid_draws := uuid_draws w;
          files := <[chunks_path := VList []]> (files w) |},
       Raises IndexError).
Proof.
  intros Hfile Hrec Hwf Hembed Hkey Hclient Hnone.
  destruct (main_until_chunks_written uuid search_endpoint search_key
              AzureKeyCredential SearchIndexClient create_or_update_index
              embeddings_create SearchClient upload_documents w v raw_content
              Hfile Hrec Hwf Hembed Hkey Hclient)
    as (out & cs & Hmade & _ & Hrun).
  pose proof (constituents_concat raw_content default_target_chars) as Hcat.
  pose proof (constituents_nonempty raw_content default_target_chars) as Hne.
  assert (cs = []) as ->.
  { change (filter (fun item => 20 <= trimmed_len item) raw_content)
      with (filter kept raw_content) in Hnone.
    rewrite Hnone in Hcat.
    destruct (constituents raw_content default_target_chars) as [|g gs].
    - by apply Forall2_nil_inv_r in Hmade.
    - apply Forall_cons in Hne as [Hg _]. simpl in Hcat.
      apply app_eq_nil in Hcat as [? _]. done. }
  rewrite Hrun. exists out. simpl. rewrite Nat.add_0_r. reflexivity.
Qed.

Lemma main_raises_IndexError_without_chunks_witness :
  files MoreSamples.only_fragments !! input_path
  = Some (VList (VDict <$> MoreSamples.fragments))
  /\ as_records (VList (VDict <$> MoreSamples.fragments))
     = Some MoreSamples.fragments
  /\ Forall well_formed MoreSamples.fragments
  /\ (fun _ _ => None : option Exception) (u "text-embedding-3-small")
       [u "test policy document"] = None
  /\ Samples.key_must_be_str Samples.workshop_key = None
  /\ Samples.index_client_built Samples.workshop_endpoint Samples.workshop_key
     = None
  /\ filter (fun item => 20 <= trimmed_len item) MoreSamples.fragments = []
  /\ exists out,
      chunk_and_index_main Samples.numbered Samples.workshop_endpoint
        Samples.workshop_key Samples.key_must_be_str
        Samples.index_client_built (fun _ => None) (fun _ _ => None)
        MoreSamples.search_client_built MoreSamples.one_failed MoreSamples.only_fragments
      = ({| stdout := stdout MoreSamples.only_fragments ++ out;
            uuid_draws := uuid_draws MoreSamples.only_fragments;
            files := <[chunks_path := VList []]>
                       (files MoreSamples.only_fragments) |},
         Raises IndexError).
Proof.
  assert (H1 : files MoreSamples.only_fragments !! input_path
               = Some (VList (VDict <$> MoreSamples.fragments))).
  { vm_compute. reflexivity. }
  assert (H3 : Forall well_formed MoreSamples.fragments).
  { refine (bool_decide_unpack _ _). vm_compute. exact I. }
  assert (H7 : filter (fun item => 20 <= trimmed_len item)
                 MoreSamples.fragments = []).
  { vm_compute. reflexivity. }
  split; [exact H1|]. split; [reflexivity|]. split; [exact H3|].
  split; [reflexivity|]. split; [reflexivity|]. split; [reflexivity|].
  split; [exact H7|].
  exact (main_raises_IndexError_without_chunks Samples.numbered
           Samples.workshop_endpoint Samples.workshop_key
           Samples.key_must_be_str Samples.index_client_built (fun _ => None)
           (fun _ _ => None) MoreSamples.search_client_built
           MoreSamples.one_failed MoreSamples.only_fragments
           _ _ H1 eq_refl H3 eq_refl eq_refl eq_refl H7).
Defined.

Lemma chunks_exist (raw_content : list record) (target_chars : Z)
    (cs : list chunk) :
  Forall2 made_of cs (constituents raw_content target_chars) ->
  filter (fun item => 20 <= trimmed_len item) raw_content <> [] ->
  exists c cs', cs = c :: cs'.
Proof.
  intros Hmade Hsome. destruct cs as [|c cs']; [|by eauto].
  exfalso. apply Hsome.
  change (filter (fun item => 20 <= trimmed_len item) raw_content)
    with (filter kept raw_content).
  rewrite <- (constituents_concat raw_content target_chars).
  apply Forall2_nil_inv_l in Hmade. by rewrite Hmade.
Qed.

(** X21: when the clients are built and the upload returns, the script
    runs to its end with exit status 0 whatever the results say:
    documents that failed to index are reported on standard output only.
    The chunks file holds the chunks that were uploaded. *)
Theorem main_exits_0_whatever_the_results
    (uuid : nat -> pystr)
    (search_endpoint search_key : option pystr)
    (AzureKeyCredential : option pystr -> option Exception)
    (SearchIndexClient : option pystr -> option pystr -> option Exception)
    (create_or_update_index : SearchIndex -> option Exception)
    (embeddings_create : pystr -> list pystr -> option Exception)
    (SearchClient : option pystr -> pystr -> option pystr
                    -> option Exception)
    (upload_documents : list chunk -> outcome (list IndexingResult))
    (w : world) (v : value) (raw_content : list record) :
  files w !! input_path = Some v ->
  as_records v = Some raw_content ->
  Forall well_formed raw_content ->
  embeddings_create (u "text-embedding-3-small") [u "test policy document"]
  = None ->
  AzureKeyCredential search_key = None ->
  SearchIndexClient search_endpoint search_key = None ->
  SearchClient search_endpoint (u "itpolicy-nist-index") search_key = None ->
  filter (fun item => 20 <= trimmed_len item) raw_content <> [] ->
  (forall cs, exists result, upload_documents cs = Returns result) ->
  exists w' cs,
    chunk_and_index_main uuid search_endpoint search_key
      AzureKeyCredential SearchIndexClient create_or_update_index
      embeddings_create SearchClient upload_documents w = (w', Returns 0)
    /\ Forall2 made_of cs (constituents raw_content default_target_chars)
    /\ files w' = <[chunks_path := VList (chunk_json <$> cs)]> (files w).
Proof.
  intros Hfile Hrec Hwf Hembed Hkey Hclient Hsearch Hsome Hupload.
  destruct (main_until_chunks_written uuid search_endpoint search_key
              AzureKeyCredential SearchIndexClient create_or_update_index
              embeddings_create SearchClient upload_documents w v raw_content
              Hfile Hrec Hwf Hembed Hkey Hclient)
    as (out & cs & Hmade & _ & Hrun).
  destruct (chunks_exist _ _ _ Hmade Hsome) as (c & cs' & Hcs).
  destruct (Hupload cs) as (result & Hresult).
  rewrite Hrun. clear Hrun.
  erewrite bind_returns by (rewrite Hcs; reflexivity).
  erewrite bind_returns by reflexivity.
  lazymatch goal with
  | |- context [mbind _ (index_chunks _ _ _ _ _ _) ?w1] =>
      destruct (index_chunks_returns search_endpoint search_key
                  AzureKeyCredential SearchClient upload_documents cs result
                  w1 Hkey Hsearch Hresult) as (out' & Hindex)
  end.
  erewrite bind_returns by exact Hindex.
  cbn [stdout uuid_draws files].
  destruct (Z.of_nat (successes result) =? Z.of_nat (length cs)).
  - erewrite bind_returns; last first.
    { erewrite bind_returns by reflexivity.
      erewrite bind_returns by reflexivity.
      erewrite bind_returns by reflexivity.
      reflexivity. }
    eexists _, cs. split; [reflexivity|]. split; [exact Hmade|reflexivity].
  - erewrite bind_returns by reflexivity.
    eexists _, cs. split; [reflexivity|]. split; [exact Hmade|reflexivity].
Qed.

Lemma main_exits_0_whatever_the_results_witness :
  files MoreSamples.extracted !! input_path
  = Some (VList (VDict <$> Samples.two_lines))
  /\ as_records (VList (VDict <$> Samples.two_lines)) = Some Samples.two_lines
  /\ Forall well_formed Samples.two_lines
  /\ (fun _ _ => None : option Exception) (u "text-embedding-3-small")
       [u "test policy document"] = None
  /\ Samples.key_must_be_str Samples.workshop_key = None
  /\ Samples.index_client_built Samples.workshop_endpoint Samples.workshop_key
     = None
  /\ MoreSamples.search_client_built Samples.workshop_endpoint
       (u "itpolicy-nist-index") Samples.workshop_key = None
  /\ filter (fun item => 20 <= trimmed_len item) Samples.two_lines <> []
  /\ (forall cs, exists result, MoreSamples.none_indexed cs = Returns result)
  /\ exists w' cs,
      chunk_and_index_main Samples.numbered Samples.workshop_endpoint
        Samples.workshop_key Samples.key_must_be_str
        Samples.index_client_built (fun _ => None) (fun _ _ => None)
        MoreSamples.search_client_built MoreSamples.none_indexed MoreSamples.extracted
      = (w', Returns 0)
      /\ Forall2 made_of cs (constituents Samples.two_lines
                               default_target_chars)
      /\ files w' = <[chunks_path := VList (chunk_json <$> cs)]>
                      (files MoreSamples.extracted).
Proof.
  assert (H1 : files MoreSamples.extracted !! input_path
               = Some (VList (VDict <$> Samples.two_lines))).
  { vm_compute. reflexivity. }
  assert (H3 : Forall well_formed Samples.two_lines).
  { refine (bool_decide_unpack _ _). vm_compute. exact I. }
  assert (H5 : filter (fun item => 20 <= trimmed_len item) Samples.two_lines
               <> []).
  { intros H. vm_compute in H. discriminate H. }
  assert (H6 : forall cs, exists result,
              MoreSamples.none_indexed cs = Returns result).
  { intros cs. eexists. reflexivity. }
  split; [exact H1|]. split; [reflexivity|]. split; [exact H3|].
  split; [reflexivity|]. split; [reflexivity|]. split; [reflexivity|].
  split; [reflexivity|]. split; [exact H5|]. split; [exact H6|].
  exact (main_exits_0_whatever_the_results Samples.numbered
           Samples.workshop_endpoint Samples.workshop_key
           Samples.key_must_be_str Samples.index_client_built (fun _ => None)
           (fun _ _ => None) MoreSamples.search_client_built
           MoreSamples.none_indexed MoreSamples.extracted
           _ _ H1 eq_refl H3 eq_refl eq_refl eq_refl eq_refl H5 H6).
Defined.

(** X22: an exception of the upload is not caught: with the clients
    built, the script ends with it, after the chunks file has been
    written. *)
Theorem main_raises_what_the_upload_raises
    (uuid : nat -> pystr)
    (search_endpoint search_key : option pystr)
    (AzureKeyCredential : option pystr -> option Exception)
    (SearchIndexClient : option pystr -> option pystr -> option Exception)
    (create_or_update_index : SearchIndex -> option Exception)
    (embeddings_create : pystr -> list pystr -> option Exception)
    (SearchClient : option pystr -> pystr -> option pystr
                    -> option Exception)
    (upload_documents : list chunk -> outcome (list IndexingResult))
    (w : world) (v : value) (raw_content : list record) (e : Exception) :
  files w !! input_path = Some v ->
  as_records v = Some raw_content ->
  Forall well_formed raw_content ->
  embeddings_create (u "text-embedding-3-small") [u "test policy document"]
  = None ->
  AzureKeyCredential search_key = None ->
  SearchIndexClient search_endpoint search_key = None ->
  SearchClient search_endpoint (u "itpolicy-nist-index") search_key = None ->
  filter (fun item => 20 <= trimmed_len item) raw_content <> [] ->
  (forall cs, upload_documents cs = Raises e) ->
  exists w' cs,
    chunk_and_index_main uuid search_endpoint search_key
      AzureKeyCredential SearchIndexClient create_or_update_index
      embeddings_create SearchClient upload_documents w = (w', Raises e)
    /\ Forall2 made_of cs (constituents raw_content default_target_chars)
    /\ files w' = <[chunks_path := VList (chunk_json <$> cs)]> (files w).
Proof.
  intros Hfile Hrec Hwf Hembed Hkey Hclient Hsearch Hsome Hupload.
  destruct (main_until_chunks_written uuid search_endpoint search_key
              AzureKeyCredential SearchIndexClient create_or_update_index
              embeddings_create SearchClient upload_documents w v raw_content
              Hfile Hrec Hwf Hembed Hkey Hclient)
    as (out & cs & Hmade & _ & Hrun).
  destruct (chunks_exist _ _ _ Hmade Hsome) as (c & cs' & Hcs).
  rewrite Hrun. clear Hrun.
  erewrite bind_returns by (rewrite Hcs; reflexivity).
  erewrite bind_returns by reflexivity.
  erewrite bind_raises; last first.
  { unfold index_chunks.
    erewrite bind_returns
      by (rewrite new_search_client_run, Hkey, Hsearch; reflexivity).
    erewrite bind_returns by reflexivity.
    erewrite bind_raises by (rewrite Hupload; reflexivity).
    reflexivity. }
  eexists _, cs. split; [reflexivity|]. split; [exact Hmade|reflexivity].
Qed.

Lemma main_raises_what_the_upload_raises_witness :
  files MoreSamples.extracted !! input_path
  = Some (VList (VDict <$> Samples.two_lines))
  /\ as_records (VList (VDict <$> Samples.two_lines)) = Some Samples.two_lines
  /\ Forall well_formed Samples.two_lines
  /\ (fun _ _ => None : option Exception) (u "text-embedding-3-small")
       [u "test policy document"] = None
  /\ Samples.key_must_be_str Samples.workshop_key = None
  /\ Samples.index_client_built Samples.workshop_endpoint Samples.workshop_key
     = None
  /\ MoreSamples.search_client_built Samples.workshop_endpoint
       (u "itpolicy-nist-index") Samples.workshop_key = None
  /\ filter (fun item => 20 <= trimmed_len item) Samples.two_lines <> []
  /\ (forall cs : list chunk,
        (fun _ => Raises Samples.quota_exceeded
                  : outcome (list IndexingResult)) cs
        = Raises Samples.quota_exceeded)
  /\ exists w' cs,
      chunk_and_index_main Samples.numbered Samples.workshop_endpoint
        Samples.workshop_key Samples.key_must_be_str
        Samples.index_client_built (fun _ => None) (fun _ _ => None)
        MoreSamples.search_client_built (fun _ => Raises Samples.quota_exceeded) MoreSamples.extracted
      = (w', Raises Samples.quota_exceeded)
      /\ Forall2 made_of cs (constituents Samples.two_lines
                               default_target_chars)
      /\ files w' = <[chunks_path := VList (chunk_json <$> cs)]>
                      (files MoreSamples.extracted).
Proof.
  assert (H1 : files MoreSamples.extracted !! input_path
               = Some (VList (VDict <$> Samples.two_lines))).
  { vm_compute. reflexivity. }
  assert (H3 : Forall well_formed Samples.two_lines).
  { refine (bool_decide_unpack _ _). vm_compute. exact I. }
  assert (H5 : filter (fun item => 20 <= trimmed_len item) Samples.two_lines
               <> []).
  { intros H. vm_compute in H. discriminate H. }
  split; [exact H1|]. split; [reflexivity|]. split; [exact H3|].
  split; [reflexivity|]. split; [reflexivity|]. split; [reflexivity|].
  split; [reflexivity|]. split; [exact H5|]. split; [reflexivity|].
  exact (main_raises_what_the_upload_raises Samples.numbered
           Samples.workshop_endpoint Samples.workshop_key
           Samples.key_must_be_str Samples.index_client_built (fun _ => None)
           (fun _ _ => None) MoreSamples.search_client_built
           (fun _ => Raises Samples.quota_exceeded) MoreSamples.extracted
           _ _ Samples.quota_exceeded
           H1 eq_refl H3 eq_refl eq_refl eq_refl eq_refl H5
           (fun _ => eq_refl)).
Defined.

(** X23: run before the extraction stage has written its file, the script
    raises [FileNotFoundError] at once: no service is called, nothing is
    written. *)
Theorem main_without_input_file
    (uuid : nat -> pystr)
    (search_endpoint search_key : option pystr)
    (AzureKeyCredential : option pystr -> option Exception)
    (SearchIndexClient : option pystr -> option pystr -> option Exception)
    (create_or_update_index : SearchIndex -> option Exception)
    (embeddings_create : pystr -> list pystr -> option Exception)
    (SearchClient : option pystr -> pystr -> option pystr
                    -> option Exception)
    (upload_documents : list chunk -> outcome (list IndexingResult))
    (w : world) :
  files w !! input_path = None ->
  chunk_and_index_main uuid search_endpoint search_key
      AzureKeyCredential SearchIndexClient create_or_update_index
      embeddings_create SearchClient upload_documents w
  = ({| stdout := stdout w
                  ++ [[0x1F680%N] ++ u " DAY 3: Chunking + Indexing (16 pages)"];
        uuid_draws := uuid_draws w; files := files w |},
     Raises (FileNotFoundError input_path)).
Proof.
  intros Hfile. unfold chunk_and_index_main.
  erewrite bind_returns by reflexivity.
  erewrite bind_raises; [reflexivity|].
  unfold json_load. cbn [files]. by rewrite Hfile.
Qed.

Lemma main_without_input_file_witness :
  files Samples.fresh !! input_path = None
  /\ chunk_and_index_main Samples.numbered Samples.workshop_endpoint
        Samples.workshop_key Samples.key_must_be_str
        Samples.index_client_built (fun _ => None) (fun _ _ => None)
        MoreSamples.search_client_built MoreSamples.one_failed Samples.fresh
     = ({| stdout := stdout Samples.fresh
                     ++ [[0x1F680%N]
                         ++ u " DAY 3: Chunking + Indexing (16 pages)"];
           uuid_draws := uuid_draws Samples.fresh;
           files := files Samples.fresh |},
        Raises (FileNotFoundError input_path)).
Proof.
  split; [reflexivity|].
  exact (main_without_input_file Samples.numbered
           Samples.workshop_endpoint Samples.workshop_key
           Samples.key_must_be_str Samples.index_client_built (fun _ => None)
           (fun _ _ => None) MoreSamples.search_client_built
           MoreSamples.one_failed Samples.fresh
           eq_refl).
Defined.

Lemma as_records_of_records (records : list record) :
  as_records (VList (VDict <$> records)) = Some records.
Proof.
  unfold as_records. induction records as [|r records IH]; [reflexivity|].
  rewrite fmap_cons. cbn [mapM]. cbn [mapM] in IH. rewrite IH. reflexivity.
Qed.

(** X24: the handoff between the two scripts. After the extraction script
    has run to its end, the chunking script loads from its input path
    exactly the first 500 records of the extraction, and each of them is a
    record the chunker can read; what lies beyond the 500th record never
    reaches the chunker. *)
Theorem extraction_hands_over_first_500
    (upload_blob : pystr -> pystr -> option Exception)
    (begin_analyze_document : pystr -> outcome AnalyzeResult)
    (w : world) (result : AnalyzeResult) :
  upload_blob (basename source_path) source_path = None ->
  begin_analyze_document source_path = Returns result ->
  exists w1,
    ingest_main upload_blob begin_analyze_document w = (w1, Returns 0)
    /\ json_load input_path w1 = (w1, Returns (take 500 (normalize result)))
    /\ Forall well_formed (take 500 (normalize result)).
Proof.
  intros Hupload Hanalyze.
  destruct (ingest_file_returns upload_blob begin_analyze_document
              source_path w result Hupload Hanalyze) as (out & Hrun).
  unfold ingest_main. erewrite bind_returns by exact Hrun.
  eexists. split; [reflexivity|]. split.
  - apply (json_load_returns _ (VList (VDict <$> take 500 (normalize result)))).
    + cbn [files].
      replace (output_path_of (basename source_path)) with input_path
        by (vm_compute; reflexivity).
      apply lookup_insert_eq.
    + apply as_records_of_records.
  - apply Forall_take, normalize_well_formed.
Qed.

Lemma extraction_hands_over_first_500_witness :
  Samples.uploaded (basename source_path) source_path = None
  /\ Samples.one_page source_path
     = Returns {| pages := Some [Samples.scanned_page] |}
  /\ exists w1,
      ingest_main Samples.uploaded Samples.one_page Samples.fresh
      = (w1, Returns 0)
      /\ json_load input_path w1
         = (w1, Returns (take 500
                           (normalize
                              {| pages := Some [Samples.scanned_page] |})))
      /\ Forall well_formed
           (take 500 (normalize {| pages := Some [Samples.scanned_page] |})).
Proof.
  split; [reflexivity|]. split; [reflexivity|].
  exact (extraction_hands_over_first_500 Samples.uploaded Samples.one_page
           Samples.fresh {| pages := Some [Samples.scanned_page] |}
           eq_refl eq_refl).
Defined.
